(** * fontpreview: layout and composition engine

    A shallow embedding of [fontpreview/fontpreview.py] and
    [fontpreview/fontpage.py].  Python integers are [Z], [//] is [Z.div]
    (both floor), tuples of two integers are pairs, strings are [string].
    Objects that are mutated in place are records threaded through a small
    state-and-exception monad: a Python exception leaves behind whatever
    was assigned before it was raised, so a computation returns the final
    state together with either the exception or the value. *)

From stdpp Require Import base numbers option list strings gmap pretty.
From Stdlib Require Import ZArith Lia Ascii.

#[local] Open Scope Z_scope.

(** ** Exceptions and the monad of method bodies *)

Inductive exn : Set :=
  | ValueError
  | TypeError
  | AttributeError
  | ZeroDivisionError
  | NotADirectoryError
  | FileExistsError
  | FileNotFoundError
  | IsADirectoryError
  | AssertionError.

#[global] Instance exn_eq_dec : EqDecision exn.
Proof. solve_decision. Defined.

(** [Py S A]: a method body running on a mutable state [S].  The state
    component of the result is the state after the call, also when the
    call raised. *)
Definition Py (S A : Type) : Type := S → S * (exn + A).

Definition py_ret {S A} (a : A) : Py S A := λ s, (s, inr a).

Definition py_bind {S A B} (m : Py S A) (k : A → Py S B) : Py S B :=
  λ s, match m s with
       | (s', inl e) => (s', inl e)
       | (s', inr a) => k a s'
       end.

Definition raise {S A} (e : exn) : Py S A := λ s, (s, inl e).
Definition get {S} : Py S S := λ s, (s, inr s).
Definition modify {S} (f : S → S) : Py S () := λ s, (f s, inr ()).

#[global] Instance Py_ret {S} : MRet (Py S) := λ A, py_ret.
#[global] Instance Py_bind {S} : MBind (Py S) := λ A B k m, py_bind m k.

(** The call came back without an exception. *)
Definition returned {S A} (r : S * (exn + A)) : Prop := ∃ a, r.2 = inr a.

(** ** fontpreview.py: sizes, bounding boxes and anchors *)

Definition _Size : Set := (Z * Z)%type.
Definition BBox : Set := (Z * Z * Z * Z)%type.

Definition floordiv2 (a : Z) : Z := a `div` 2.

Module Anchor.

Definition center (ixy fxy : _Size) : _Size :=
  (floordiv2 (ixy.1 - fxy.1), floordiv2 (ixy.2 - fxy.2)).
Definition top (ixy fxy : _Size) : _Size :=
  (floordiv2 (ixy.1 - fxy.1), 0).
Definition below (ixy fxy : _Size) : _Size :=
  (floordiv2 (ixy.1 - fxy.1), ixy.2 - fxy.2).
Definition rcenter (ixy fxy : _Size) : _Size :=
  (ixy.1 - fxy.1, floordiv2 (ixy.2 - fxy.2)).
Definition rtop (ixy fxy : _Size) : _Size :=
  (ixy.1 - fxy.1, 0).
Definition rbelow (ixy fxy : _Size) : _Size :=
  (ixy.1 - fxy.1, ixy.2 - fxy.2).
Definition lcenter (ixy fxy : _Size) : _Size :=
  (0, floordiv2 (ixy.2 - fxy.2)).
Definition ltop (_ixy _fxy : _Size) : _Size := (0, 0).
Definition lbelow (ixy fxy : _Size) : _Size :=
  (0, ixy.2 - fxy.2).

End Anchor.

(** The module-level dictionary [CALC_POSITION]. *)
Definition CALC_POSITION : gmap string (_Size → _Size → _Size) :=
  list_to_map
    [ ("center", Anchor.center);
      ("top", Anchor.top);
      ("below", Anchor.below);
      ("rcenter", Anchor.rcenter);
      ("rtop", Anchor.rtop);
      ("rbelow", Anchor.rbelow);
      ("lcenter", Anchor.lcenter);
      ("ltop", Anchor.ltop);
      ("lbelow", Anchor.lbelow) ].

(** [CALC_POSITION[name]]: a missing key raises [KeyError]; the only
    subscript in the sources is ['center'] and ['lcenter'], both present,
    so the default below is never reached. *)
Definition CALC_POSITION_item (name : string) : _Size → _Size → _Size :=
  default Anchor.center (CALC_POSITION !! name).

(** [CALC_POSITION.get(name, dflt)]. *)
Definition CALC_POSITION_get (name : string) (dflt : _Size → _Size → _Size)
  : _Size → _Size → _Size :=
  default dflt (CALC_POSITION !! name).

Definition _bbox2size (bbox : BBox) : _Size :=
  let '(b0, b1, b2, b3) := bbox in (b2 - b0, b1 - b3).

(** Python's ordering of two 2-tuples of integers: the first components
    decide unless they are equal, then the second ones do. *)
Definition tuple_gt (a b : _Size) : bool :=
  if a.1 =? b.1 then
    if a.2 =? b.2 then false else a.2 >? b.2
  else a.1 >? b.1.

Definition tuple_lt (a b : _Size) : bool :=
  if a.1 =? b.1 then
    if a.2 =? b.2 then false else a.2 <? b.2
  else a.1 <? b.1.

(** ** fontpage.py: FontPageTemplate *)

Module FontPageTemplate.

Record t : Set := Build {
  page_height : Z;
  unit_ : Z;
  header_font_size : Z;
  header_units : Z;
  header_text_position : string;
  body_font_size : Z;
  body_units : Z;
  body_text_position : string;
  footer_font_size : Z;
  footer_units : Z;
  footer_text_position : string
}.

Definition set_header_font_size (v : Z) (s : t) : t :=
  Build (page_height s) (unit_ s)
    v (header_units s) (header_text_position s)
    (body_font_size s) (body_units s) (body_text_position s)
    (footer_font_size s) (footer_units s) (footer_text_position s).
Definition set_header_units (v : Z) (s : t) : t :=
  Build (page_height s) (unit_ s)
    (header_font_size s) v (header_text_position s)
    (body_font_size s) (body_units s) (body_text_position s)
    (footer_font_size s) (footer_units s) (footer_text_position s).
Definition set_header_text_position (v : string) (s : t) : t :=
  Build (page_height s) (unit_ s)
    (header_font_size s) (header_units s) v
    (body_font_size s) (body_units s) (body_text_position s)
    (footer_font_size s) (footer_units s) (footer_text_position s).
Definition set_body_font_size (v : Z) (s : t) : t :=
  Build (page_height s) (unit_ s)
    (header_font_size s) (header_units s) (header_text_position s)
    v (body_units s) (body_text_position s)
    (footer_font_size s) (footer_units s) (footer_text_position s).
Definition set_body_units (v : Z) (s : t) : t :=
  Build (page_height s) (unit_ s)
    (header_font_size s) (header_units s) (header_text_position s)
    (body_font_size s) v (body_text_position s)
    (footer_font_size s) (footer_units s) (footer_text_position s).
Definition set_body_text_position (v : string) (s : t) : t :=
  Build (page_height s) (unit_ s)
    (header_font_size s) (header_units s) (header_text_position s)
    (body_font_size s) (body_units s) v
    (footer_font_size s) (footer_units s) (footer_text_position s).
Definition set_footer_font_size (v : Z) (s : t) : t :=
  Build (page_height s) (unit_ s)
    (header_font_size s) (header_units s) (header_text_position s)
    (body_font_size s) (body_units s) (body_text_position s)
    v (footer_units s) (footer_text_position s).
Definition set_footer_units (v : Z) (s : t) : t :=
  Build (page_height s) (unit_ s)
    (header_font_size s) (header_units s) (header_text_position s)
    (body_font_size s) (body_units s) (body_text_position s)
    (footer_font_size s) v (footer_text_position s).
Definition set_footer_text_position (v : string) (s : t) : t :=
  Build (page_height s) (unit_ s)
    (header_font_size s) (header_units s) (header_text_position s)
    (body_font_size s) (body_units s) (body_text_position s)
    (footer_font_size s) (footer_units s) v.

(** [FontPageTemplate(page_height, units_number)]. *)
Definition __init__ (page_height units_number : Z) : exn + t :=
  if units_number =? 0 then inl ZeroDivisionError
  else
    let unit := page_height `div` units_number in
    inr (Build page_height unit
           120 unit "center"
           140 (unit * 3) "center"
           120 (unit * 2) "center").

Definition default_units_number : Z := 6.
Definition default_page_height : Z := 3508.

Definition __check_units (context : string) (unit : Z) : Py t () :=
  self ← get;
  total_units ←
    (if String.eqb context "header" then
       mret (unit + body_units self + footer_units self)
     else if String.eqb context "body" then
       mret (header_units self + unit + footer_units self)
     else if String.eqb context "footer" then
       mret (header_units self + body_units self + unit)
     else raise ValueError);
  if total_units >? page_height self then raise ValueError
  else mret ().

Definition set_header (font_size units : Z) (text_position : string)
  : Py t () :=
  modify (set_header_font_size font_size);;
  self ← get;
  let unit := unit_ self * units in
  __check_units "header" unit;;
  modify (set_header_units unit);;
  modify (set_header_text_position text_position).

Definition set_body (font_size units : Z) (text_position : string)
  : Py t () :=
  modify (set_body_font_size font_size);;
  self ← get;
  let unit := unit_ self * units in
  __check_units "body" unit;;
  modify (set_body_units unit);;
  modify (set_body_text_position text_position).

Definition set_footer (font_size units : Z) (text_position : string)
  : Py t () :=
  modify (set_footer_font_size font_size);;
  self ← get;
  let unit := unit_ self * units in
  __check_units "footer" unit;;
  modify (set_footer_units unit);;
  modify (set_footer_text_position text_position).

(** A caller's script: a sequence of setter calls, each one possibly
    raising; the caller goes on with the object as the call left it. *)
Inductive call : Set :=
  | SetHeader (font_size units : Z) (text_position : string)
  | SetBody (font_size units : Z) (text_position : string)
  | SetFooter (font_size units : Z) (text_position : string).

Definition perform (c : call) : Py t () :=
  match c with
  | SetHeader f u p => set_header f u p
  | SetBody f u p => set_body f u p
  | SetFooter f u p => set_footer f u p
  end.

Definition run (cs : list call) (s : t) : t :=
  foldl (λ s c, (perform c s).1) s cs.

Definition sum_units (s : t) : Z :=
  header_units s + body_units s + footer_units s.

Definition within_page (s : t) : Prop := sum_units s ≤ page_height s.

(** The band height a setter call asks for, and the total that
    [__check_units] compares with the page height. *)
Definition requested_total (c : call) (s : t) : Z :=
  match c with
  | SetHeader _ u _ => unit_ s * u + body_units s + footer_units s
  | SetBody _ u _ => header_units s + unit_ s * u + footer_units s
  | SetFooter _ u _ => header_units s + body_units s + unit_ s * u
  end.

(** The state a rejected call leaves behind: the font size of its band
    is already written. *)
Definition font_size_written (c : call) (s : t) : t :=
  match c with
  | SetHeader f _ _ => set_header_font_size f s
  | SetBody f _ _ => set_body_font_size f s
  | SetFooter f _ _ => set_footer_font_size f s
  end.

Definition committed (c : call) (s : t) : t :=
  match c with
  | SetHeader f u p =>
      set_header_text_position p
        (set_header_units (unit_ s * u) (set_header_font_size f s))
  | SetBody f u p =>
      set_body_text_position p
        (set_body_units (unit_ s * u) (set_body_font_size f s))
  | SetFooter f u p =>
      set_footer_text_position p
        (set_footer_units (unit_ s * u) (set_footer_font_size f s))
  end.

End FontPageTemplate.

(** ** Pillow, as far as the sources use it

    An image is the history of the Pillow calls that produced it; its size
    is read off that history.  In-memory drawing is total.  Loading a font
    is the one Pillow call of [fontpreview.py] that is given a computed
    argument (the font size), so it may raise; a loaded font is the pair of
    the path and the size it was loaded with.  Text measurement is a
    function of the font and the text. *)

Definition Color : Set := string.

Record Font : Set := { path : string; size : Z }.

Inductive Image : Set :=
  | Image_new (mode : string) (size : _Size) (color : Color)
  | Image_open (fp : string)
  | Draw_text (im : Image) (xy : Z * Z) (text : string) (fill : Color)
      (font : Font) (align : string)
  | Image_paste (im : Image) (src : Image) (box : Z * Z)
  | Draw_line (im : Image) (p q : Z * Z) (fill : Color) (width : Z)
  | Image_resize (im : Image) (size : _Size).

Class Pillow : Type := {
  (** [ImageFont.truetype(font=path, size=size)]: [Some e] when it raises. *)
  truetype_error : string → Z → option exn;
  (** [font.getbbox(text)] *)
  getbbox : Font → string → BBox;
  (** [draw.multiline_textbbox(xy=[0, 0], text=text, font=font)] *)
  multiline_textbbox : Font → string → BBox;
  (** size of the image file that [Image.open] reads *)
  opened_size : string → _Size
}.

Section pillow.
Context `{Pillow}.

Definition truetype (font : string) (size : Z) : exn + Font :=
  match truetype_error font size with
  | Some e => inl e
  | None => inr {| path := font; size := size |}
  end.

Fixpoint image_size (im : Image) : _Size :=
  match im with
  | Image_new _ sz _ => sz
  | Image_open fp => opened_size fp
  | Draw_text im _ _ _ _ _ => image_size im
  | Image_paste im _ _ => image_size im
  | Draw_line im _ _ _ _ => image_size im
  | Image_resize _ sz => sz
  end.

Definition image_width (im : Image) : Z := (image_size im).1.
Definition image_height (im : Image) : Z := (image_size im).2.

Definition get_font_size (font : Font) (text : string) : _Size :=
  _bbox2size (getbbox font text).

Definition get_multiline_textsize (text : string) (font : Font) : _Size :=
  _bbox2size (multiline_textbbox font text).

End pillow.

(** ** fontpreview.py: FontPreview *)

(** The argument of [set_text_position]: a tuple or a string. *)
Inductive position : Set :=
  | PosTuple (xy : Z * Z)
  | PosName (name : string).

Module FontPreview.

Record t : Set := Build {
  image : Image;
  font_size : Z;
  font_text : string;
  font : Font;
  color_system : string;
  bg_image : option string;
  bg_color : Color;
  fg_color : Color;
  dimension : _Size;
  font_position : Z * Z
}.

Definition set_image (v : Image) (s : t) : t :=
  Build v (font_size s) (font_text s) (font s) (color_system s)
    (bg_image s) (bg_color s) (fg_color s) (dimension s) (font_position s).
Definition set_font_size_attr (v : Z) (s : t) : t :=
  Build (image s) v (font_text s) (font s) (color_system s)
    (bg_image s) (bg_color s) (fg_color s) (dimension s) (font_position s).
Definition set_font (v : Font) (s : t) : t :=
  Build (image s) (font_size s) (font_text s) v (color_system s)
    (bg_image s) (bg_color s) (fg_color s) (dimension s) (font_position s).
Definition set_dimension (v : _Size) (s : t) : t :=
  Build (image s) (font_size s) (font_text s) (font s) (color_system s)
    (bg_image s) (bg_color s) (fg_color s) v (font_position s).
Definition set_font_position (v : Z * Z) (s : t) : t :=
  Build (image s) (font_size s) (font_text s) (font s) (color_system s)
    (bg_image s) (bg_color s) (fg_color s) (dimension s) v.

(** Truth value of [self.bg_image]: [None] and the empty string are
    false. *)
Definition bg_image_set (s : t) : option string :=
  match bg_image s with
  | Some fp => if String.eqb fp "" then None else Some fp
  | None => None
  end.

Section methods.
Context `{Pillow}.

(** The canvas that [draw] builds. *)
Definition rendered (align : string) (self : t) : Image :=
  let background :=
    match bg_image_set self with
    | Some fp => Image_open fp
    | None => Image_new (color_system self) (dimension self) (bg_color self)
    end in
  Draw_text background (font_position self) (font_text self)
    (fg_color self) (font self) align.

Definition draw (align : string) : Py t () :=
  self ← get;
  modify (set_image (rendered align self)).

Definition draw_default : Py t () := draw "left".

Definition __init__ (font : string) (font_size : Z) (font_text : string)
    (color_system : string) (bg_color fg_color : Color)
    (dimension : _Size) : exn + t :=
  match truetype font font_size with
  | inl e => inl e
  | inr f =>
      let font_position :=
        CALC_POSITION_item "center" dimension (get_font_size f font_text) in
      let self :=
        Build (Image_new color_system dimension bg_color)
          font_size font_text f color_system None bg_color fg_color
          dimension font_position in
      inr (set_image (rendered "left" self) self)
  end.

(** The [while] loop of [__resize].  [None]: the loop is still running
    after [fuel] iterations. *)
Fixpoint __resize_while (fuel : nat) (text_size : _Size) (self : t)
  : option (t * (exn + ())) :=
  if tuple_gt text_size (dimension self) then
    match fuel with
    | O => None
    | S fuel =>
        let self := set_font_size_attr (font_size self - 2) self in
        match truetype (path (font self)) (font_size self) with
        | inl e => Some (self, inl e)
        | inr f =>
            let self := set_font f self in
            let text_size :=
              get_multiline_textsize (font_text self) (font self) in
            __resize_while fuel text_size self
        end
    end
  else Some (self, inr ()).

Definition __resize (fuel : nat) (self : t) : option (t * (exn + ())) :=
  let text_size := get_multiline_textsize (font_text self) (font self) in
  __resize_while fuel text_size self.

Definition set_font_size (fuel : nat) (size : Z) (self : t)
  : option (t * (exn + ())) :=
  let self := set_font_size_attr size self in
  match truetype (path (font self)) (font_size self) with
  | inl e => Some (self, inl e)
  | inr f =>
      let self := set_font f self in
      match __resize fuel self with
      | None => None
      | Some (self, inl e) => Some (self, inl e)
      | Some (self, inr _) => Some (draw_default self)
      end
  end.

Definition set_text_position (pos : position) : Py t () :=
  match pos with
  | PosTuple xy => modify (set_font_position xy)
  | PosName name =>
      self ← get;
      let fxy := get_multiline_textsize (font_text self) (font self) in
      let fn := CALC_POSITION_get name (CALC_POSITION_item "center") in
      modify (set_font_position (fn (dimension self) fxy))
  end;;
  draw_default.

(** The size that the loop compares with the canvas. *)
Definition measured (self : t) : _Size :=
  get_multiline_textsize (font_text self) (font self).

(** The preview as [set_font_size] hands it to [__resize]. *)
Definition reloaded (size : Z) (self : t) : t :=
  set_font {| path := path (font self); size := size |}
    (set_font_size_attr size self).

End methods.

End FontPreview.

(** ** Objects, references and the heap

    [fontpage.py] receives renderer objects from its caller and mutates
    them in place; the same object may be header, body and footer at once.
    Objects live in a heap and are named by references. *)

(** Method bodies that may also fail to terminate: [None] when the fuel of
    a loop underneath ran out. *)
Definition PyD (S A : Type) : Type := S → option (S * (exn + A)).

Definition pyd_bind {S A B} (m : PyD S A) (k : A → PyD S B) : PyD S B :=
  λ s, match m s with
       | None => None
       | Some (s', inl e) => Some (s', inl e)
       | Some (s', inr a) => k a s'
       end.

#[global] Instance PyD_ret {S} : MRet (PyD S) := λ A a s, Some (s, inr a).
#[global] Instance PyD_bind {S} : MBind (PyD S) := λ A B k m, pyd_bind m k.

Definition total {S A} (m : Py S A) : PyD S A := λ s, Some (m s).

(** The classes of renderer objects.  [FontBanner] and [FontLogo] are
    defined in [fontbanner.py]. *)
Inductive rclass : Set := CFontPreview | CFontBanner | CFontLogo.

#[global] Instance rclass_eq_dec : EqDecision rclass.
Proof. solve_decision. Defined.

Inductive pyobj : Set :=
  | Renderer (cls : rclass) (st : FontPreview.t)
  | OtherObject.

Definition ref : Set := nat.

(** An attribute of an instance: never assigned, [None], or an object. *)
Inductive attr : Set :=
  | Unset
  | PyNone
  | Ref (r : ref).

(** Modelled from the spec: the class hierarchy of [fontbanner.py], which
    is not among the sources.  [FontBanner] and [FontLogo] are variants
    (subclasses) of the preview renderer [FontPreview]. *)
Definition isinstance_FontPreview (o : option pyobj) : bool :=
  match o with
  | Some (Renderer _ _) => true
  | _ => false
  end.

Definition isinstance_FontBanner (o : option pyobj) : bool :=
  match o with
  | Some (Renderer CFontBanner _) => true
  | _ => false
  end.

Definition isinstance_FontLogo (o : option pyobj) : bool :=
  match o with
  | Some (Renderer CFontLogo _) => true
  | _ => false
  end.

(** The methods of [FontBanner] and [FontLogo] that [fontpage.py] calls.
    Their bodies are in [fontbanner.py]; a subclass may inherit or override
    the methods of [FontPreview].  [add_image] receives the other renderer
    and may change it as well as the banner. *)
Class FontBannerModule : Type := {
  banner_draw : PyD FontPreview.t ();
  banner_set_font_size : Z → PyD FontPreview.t ();
  banner_set_text_position : position → PyD FontPreview.t ();
  banner_add_image :
    FontPreview.t → Z * Z → FontPreview.t →
    option ((FontPreview.t * FontPreview.t) * (exn + ()));
  logo_draw : PyD FontPreview.t ();
  logo_set_font_size : Z → PyD FontPreview.t ();
  logo_set_text_position : position → PyD FontPreview.t ();
  logo_new_size : _Size → PyD FontPreview.t ()
}.

(** ** The file system, as far as [save] uses it

    A path is the list of its components below the current directory,
    which exists and is a directory.  [Image.save] writes the image under
    the given name; it needs the parent directory and refuses to replace a
    directory. *)

Inductive fsnode : Set :=
  | Dir
  | File (content : Image).

Definition fspath : Set := list string.

Module Path.

Definition is_dir (p : fspath) (fs : gmap fspath fsnode) : bool :=
  match p with
  | [] => true
  | _ => match fs !! p with
         | Some Dir => true
         | _ => false
         end
  end.

Definition exists_ (p : fspath) (fs : gmap fspath fsnode) : bool :=
  match p with
  | [] => true
  | _ => match fs !! p with
         | Some _ => true
         | None => false
         end
  end.

Definition parent (p : fspath) : fspath := removelast p.

(** [folder / name] *)
Definition join (folder : fspath) (name : string) : fspath :=
  folder ++ [name].

(** [mkdir(parents=True)], creating the components in [todo] below
    [done] one after the other. *)
Fixpoint mkdir_from (done : fspath) (todo : list string)
    (fs : gmap fspath fsnode) : gmap fspath fsnode * (exn + ()) :=
  match todo with
  | [] => (fs, inr ())
  | c :: todo =>
      let p := done ++ [c] in
      match fs !! p with
      | Some Dir =>
          match todo with
          | [] => (fs, inl FileExistsError)
          | _ => mkdir_from p todo fs
          end
      | Some (File _) =>
          match todo with
          | [] => (fs, inl FileExistsError)
          | _ => (fs, inl NotADirectoryError)
          end
      | None => mkdir_from p todo (<[p := Dir]> fs)
      end
  end.

Definition mkdir_parents (p : fspath) : Py (gmap fspath fsnode) () :=
  match p with
  | [] => raise FileExistsError
  | _ => mkdir_from [] p
  end.

End Path.

Definition Image_save (im : Image) (p : fspath)
  : Py (gmap fspath fsnode) () :=
  λ fs,
    if Path.is_dir (Path.parent p) fs then
      if Path.is_dir p fs then (fs, inl IsADirectoryError)
      else (<[p := File im]> fs, inr ())
    else (fs, inl FileNotFoundError).

Module FontPage.

Record t : Set := Build {
  template : option FontPageTemplate.t;
  dimension : _Size;
  color_system : string;
  page : Image;
  header : attr;
  logo : attr;
  body : attr;
  footer : attr
}.

Definition set_template (v : option FontPageTemplate.t) (s : t) : t :=
  Build v (dimension s) (color_system s) (page s)
    (header s) (logo s) (body s) (footer s).
Definition set_dimension (v : _Size) (s : t) : t :=
  Build (template s) v (color_system s) (page s)
    (header s) (logo s) (body s) (footer s).
Definition set_page (v : Image) (s : t) : t :=
  Build (template s) (dimension s) (color_system s) v
    (header s) (logo s) (body s) (footer s).
Definition set_header_attr (v : attr) (s : t) : t :=
  Build (template s) (dimension s) (color_system s) (page s)
    v (logo s) (body s) (footer s).
Definition set_logo_attr (v : attr) (s : t) : t :=
  Build (template s) (dimension s) (color_system s) (page s)
    (header s) v (body s) (footer s).
Definition set_body_attr (v : attr) (s : t) : t :=
  Build (template s) (dimension s) (color_system s) (page s)
    (header s) (logo s) v (footer s).
Definition set_footer_attr (v : attr) (s : t) : t :=
  Build (template s) (dimension s) (color_system s) (page s)
    (header s) (logo s) (body s) v.


(** What a method of a page runs on: the page and the heap of the
    renderer objects. *)
Record world : Set := World { self : t; heap : gmap ref pyobj }.

Definition on_self (f : t → t) : PyD world () :=
  λ w, Some (World (f (self w)) (heap w), inr ()).

Definition get_self : PyD world t := λ w, Some (w, inr (self w)).

Definition raiseD {A} (e : exn) : PyD world A := λ w, Some (w, inl e).

(** Reading an attribute of the renderer that [r] names; anything that
    is not a renderer has none of them. *)
Definition deref (r : ref) : PyD world (rclass * FontPreview.t) :=
  λ w, match heap w !! r with
       | Some (Renderer cls st) => Some (w, inr (cls, st))
       | _ => Some (w, inl AttributeError)
       end.

(** [obj.attribute = value] on the renderer that [r] names. *)
Definition assign (r : ref) (f : FontPreview.t → FontPreview.t)
  : PyD world () :=
  λ w, match heap w !! r with
       | Some (Renderer cls st) =>
           Some (World (self w) (<[r := Renderer cls (f st)]> (heap w)),
                 inr ())
       | _ => Some (w, inl AttributeError)
       end.

(** [obj.method(...)] on the renderer that [r] names, the method chosen
    by the class of the object. *)
Definition call (r : ref) (m : rclass → PyD FontPreview.t ())
  : PyD world () :=
  λ w, match heap w !! r with
       | Some (Renderer cls st) =>
           match m cls st with
           | None => None
           | Some (st', res) =>
               Some (World (self w) (<[r := Renderer cls st']> (heap w)),
                     res)
           end
       | _ => Some (w, inl AttributeError)
       end.

(** Reading [self.header] and the like: an attribute that was never
    assigned raises. *)
Definition read (a : t → attr) : PyD world (option ref) :=
  λ w, match a (self w) with
       | Unset => Some (w, inl AttributeError)
       | PyNone => Some (w, inr None)
       | Ref r => Some (w, inr (Some r))
       end.

(** The class of what a reference names; in-place updates keep it. *)
Definition class_of (o : option pyobj) : option (option rclass) :=
  match o with
  | Some (Renderer cls _) => Some (Some cls)
  | Some OtherObject => Some None
  | None => None
  end.

(** [changes X w w']: from [w] to [w'] the page object is the same, all
    objects keep their classes, and only the objects named in [X] may
    differ. *)
Definition changes (X : list ref) (w w' : world) : Prop :=
  self w' = self w
  ∧ (∀ r, class_of (heap w' !! r) = class_of (heap w !! r))
  ∧ (∀ r, r ∉ X → heap w' !! r = heap w !! r).

(** The page canvas that [__compose] starts from. *)
Definition blank (tpl : FontPageTemplate.t) (s : t) : Image :=
  Image_new (color_system s)
    ((dimension s).1, FontPageTemplate.page_height tpl) "white".

Section methods.
Context `{Pillow} `{FontBannerModule}.
Variable fuel : nat.

Definition m_draw (cls : rclass) : PyD FontPreview.t () :=
  match cls with
  | CFontPreview => total FontPreview.draw_default
  | CFontBanner => banner_draw
  | CFontLogo => logo_draw
  end.

Definition m_set_font_size (size : Z) (cls : rclass)
  : PyD FontPreview.t () :=
  match cls with
  | CFontPreview => FontPreview.set_font_size fuel size
  | CFontBanner => banner_set_font_size size
  | CFontLogo => logo_set_font_size size
  end.

Definition m_set_text_position (pos : position) (cls : rclass)
  : PyD FontPreview.t () :=
  match cls with
  | CFontPreview => total (FontPreview.set_text_position pos)
  | CFontBanner => banner_set_text_position pos
  | CFontLogo => logo_set_text_position pos
  end.

(** [new_size] exists on [FontLogo] only. *)
Definition m_new_size (size : _Size) (cls : rclass)
  : PyD FontPreview.t () :=
  match cls with
  | CFontLogo => logo_new_size size
  | _ => λ st, Some (st, inl AttributeError)
  end.

(** [banner.add_image(other, position)]: [add_image] exists on
    [FontBanner] only. *)
Definition call_add_image (banner other : ref) (pos : Z * Z)
  : PyD world () :=
  λ w, match heap w !! banner, heap w !! other with
       | Some (Renderer CFontBanner bst), Some (Renderer ocls ost) =>
           match banner_add_image ost pos bst with
           | None => None
           | Some ((bst', ost'), res) =>
               Some (World (self w)
                       (<[other := Renderer ocls ost']>
                          (<[banner := Renderer CFontBanner bst']>
                             (heap w))),
                     res)
           end
       | _, _ => Some (w, inl AttributeError)
       end.

(** Widening a part to the width of the page, shared by the three
    setters. *)
Definition widen (r : ref) : PyD world () :=
  self ← get_self;
  '(_, st) ← deref r;
  if bool_decide (image_width (page self)
                  ≠ image_width (FontPreview.image st)) then
    assign r (FontPreview.set_dimension
                (image_width (page self),
                 image_height (FontPreview.image st)));;
    call r m_draw
  else mret ().

Definition set_header (header : ref) : PyD world () :=
  λ w,
    if isinstance_FontBanner (heap w !! header) then
      (widen header;;
       on_self (set_header_attr (Ref header))) w
    else raiseD TypeError w.

Definition set_logo (logo : ref) : PyD world () :=
  λ w,
    if negb (isinstance_FontLogo (heap w !! logo)) then
      raiseD TypeError w
    else
      (hdr ← read header;
       match hdr with
       | None => raiseD ValueError
       | Some h =>
           '(_, hst) ← deref h;
           '(_, lst) ← deref logo;
           (if tuple_lt (image_size (FontPreview.image hst))
                        (image_size (FontPreview.image lst))
            then call logo (m_new_size (75, 75))
            else mret ());;
           '(_, hst) ← deref h;
           call_add_image h logo
             (CALC_POSITION_item "lcenter"
                (FontPreview.dimension hst)
                (get_font_size (FontPreview.font hst)
                   (FontPreview.font_text hst)))
       end) w.

Definition set_body (body : ref) : PyD world () :=
  λ w,
    if negb (isinstance_FontPreview (heap w !! body)) then
      raiseD TypeError w
    else
      (widen body;;
       on_self (set_body_attr (Ref body))) w.

Definition set_footer (footer : ref) : PyD world () :=
  λ w,
    if negb (isinstance_FontPreview (heap w !! footer)) then
      raiseD TypeError w
    else
      (widen footer;;
       on_self (set_footer_attr (Ref footer))) w.

(** One band of [__compose], after the part was set again: the height
    taken from the template when the canvas of the part differs, then
    font size and text position. *)
Definition compose_part (r : ref) (units font_size : Z)
    (text_position : string) : PyD world () :=
  self ← get_self;
  '(_, st) ← deref r;
  (if bool_decide (image_height (FontPreview.image st) ≠ units) then
     assign r (FontPreview.set_dimension
                 (image_width (page self), units))
   else mret ());;
  call r (m_set_font_size font_size);;
  call r (m_set_text_position (PosName text_position)).

Definition the_template : PyD world FontPageTemplate.t :=
  self ← get_self;
  match template self with
  | Some tpl => mret tpl
  | None => raiseD AttributeError
  end.

(** [if not self.template: self.template = FontPageTemplate(...)] *)
Definition default_template : PyD world () :=
  self ← get_self;
  match template self with
  | Some _ => mret ()
  | None =>
      match FontPageTemplate.__init__ (dimension self).2
              FontPageTemplate.default_units_number with
      | inl e => raiseD e
      | inr tpl => on_self (set_template (Some tpl))
      end
  end.

Definition __compose : PyD world () :=
  default_template;;
  h ← read header;
  match h with
  | None => raiseD AttributeError
  | Some h =>
  b ← read body;
  match b with
  | None => raiseD AttributeError
  | Some b =>
  f ← read footer;
  match f with
  | None => raiseD AttributeError
  | Some f =>
      tpl ← the_template;
      on_self (λ s, set_dimension
                      ((dimension s).1, FontPageTemplate.page_height tpl)
                      s);;
      on_self (λ s, set_page
                      (Image_new (color_system s) (dimension s) "white")
                      s);;
      set_header h;;
      tpl ← the_template;
      compose_part h (FontPageTemplate.header_units tpl)
        (FontPageTemplate.header_font_size tpl)
        (FontPageTemplate.header_text_position tpl);;
      set_body b;;
      tpl ← the_template;
      compose_part b (FontPageTemplate.body_units tpl)
        (FontPageTemplate.body_font_size tpl)
        (FontPageTemplate.body_text_position tpl);;
      set_footer f;;
      tpl ← the_template;
      compose_part f (FontPageTemplate.footer_units tpl)
        (FontPageTemplate.footer_font_size tpl)
        (FontPageTemplate.footer_text_position tpl)
  end end end.

(** [assert self.x is not None] followed by uses of [self.x]. *)
Definition asserted (a : t → attr) : PyD world ref :=
  r ← read a;
  match r with
  | None => raiseD AssertionError
  | Some r => mret r
  end.

Definition paste (src : Image) (box : Z * Z) : PyD world () :=
  on_self (λ s, set_page (Image_paste (page s) src box) s).

Definition line (p q : Z * Z) (fill : Color) (width : Z)
  : PyD world () :=
  on_self (λ s, set_page (Draw_line (page s) p q fill width) s).

Definition draw (separator : bool) (sep_color : Color) (sep_width : Z)
  : PyD world () :=
  __compose;;
  h ← asserted header;
  b ← asserted body;
  f ← asserted footer;
  let header_start := (0, 0) in
  '(_, hst) ← deref h;
  paste (FontPreview.image hst) header_start;;
  '(_, hst) ← deref h;
  let body_start := (0, image_height (FontPreview.image hst)) in
  '(_, bst) ← deref b;
  paste (FontPreview.image bst) body_start;;
  '(_, bst) ← deref b;
  '(_, hst) ← deref h;
  let footer_start :=
    (0, image_height (FontPreview.image bst)
        + image_height (FontPreview.image hst)) in
  '(_, fst) ← deref f;
  paste (FontPreview.image fst) footer_start;;
  if separator then
    self ← get_self;
    '(_, hst) ← deref h;
    let body_finish :=
      (image_width (page self), image_height (FontPreview.image hst)) in
    line body_start body_finish sep_color sep_width;;
    self ← get_self;
    '(_, bst) ← deref b;
    '(_, hst) ← deref h;
    let footer_finish :=
      (image_width (page self),
       image_height (FontPreview.image bst)
       + image_height (FontPreview.image hst)) in
    line footer_start footer_finish sep_color sep_width
  else mret ().

Definition draw_default : PyD world () := draw true "black" 5.

(** [FontPage(template, dimension, header, logo, body, footer)]: the
    new page and the heap after the constructor, or the exception that
    left no page behind. *)
Definition __init__ (template : option FontPageTemplate.t)
    (dimension : _Size) (header logo body footer : option ref)
    (hp : gmap ref pyobj) : option (gmap ref pyobj * (exn + t)) :=
  let dimension :=
    match template with
    | Some tpl => (dimension.1, FontPageTemplate.page_height tpl)
    | None => dimension
    end in
  let self0 :=
    Build template dimension "RGB" (Image_new "RGB" dimension "white")
      Unset Unset Unset Unset in
  let body_of_init : PyD world () :=
    match header with
    | Some h => set_header h
    | None => on_self (set_header_attr PyNone)
    end;;
    match logo with
    | Some l => set_logo l
    | None => on_self (set_logo_attr PyNone)
    end;;
    match body with
    | Some b => set_body b
    | None => on_self (set_body_attr PyNone)
    end;;
    match footer with
    | Some f => set_footer f
    | None => on_self (set_footer_attr PyNone)
    end in
  match body_of_init (World self0 hp) with
  | None => None
  | Some (w, inl e) => Some (heap w, inl e)
  | Some (w, inr _) => Some (heap w, inr (self w))
  end.

End methods.

Definition default_dimension : _Size := (2480, 3508).

(** [save(path)]: [path or Path() / 'fontpage.png']. *)
Definition save (path : option fspath) (self : t)
  : Py (gmap fspath fsnode) () :=
  let path := default (Path.join [] "fontpage.png") path in
  Image_save (page self) path.

End FontPage.

(** ** fontpage.py: FontBooklet *)

(** An argument of the constructor: a page or something else. *)
Inductive booklet_arg : Set :=
  | APage (p : FontPage.t)
  | NotAPage.

Module FontBooklet.

Record t : Set := Build { pages : list FontPage.t }.

Fixpoint checked (args : list booklet_arg) : exn + list FontPage.t :=
  match args with
  | [] => inr []
  | APage p :: args =>
      match checked args with
      | inl e => inl e
      | inr ps => inr (p :: ps)
      end
  | NotAPage :: _ => inl TypeError
  end.

Definition __init__ (args : list booklet_arg) : exn + t :=
  match checked args with
  | inl e => inl e
  | inr ps => inr (Build ps)
  end.

Definition __iter__ (self : t) : list FontPage.t := pages self.

Definition page_name (idx : nat) (extension : string) : string :=
  "page" +:+ pretty (idx + 1)%nat +:+ "." +:+ extension.

(** The [for] loop over [enumerate(self)], from index [idx] on. *)
Fixpoint save_from (folder : fspath) (extension : string) (idx : nat)
    (pages : list FontPage.t) : Py (gmap fspath fsnode) () :=
  match pages with
  | [] => mret ()
  | page :: pages =>
      FontPage.save (Some (Path.join folder (page_name idx extension)))
        page;;
      save_from folder extension (S idx) pages
  end.

Definition save (folder : fspath) (extension : string) (self : t)
  : Py (gmap fspath fsnode) () :=
  fs ← get;
  if negb (Path.is_dir folder fs) then raise NotADirectoryError
  else
    (fs ← get;
     if negb (Path.exists_ folder fs) then Path.mkdir_parents folder
     else mret ());;
    save_from folder extension 0 (__iter__ self).

End FontBooklet.

(** ** Sample objects

    A font whose glyphs are half as wide as the font size and whose lines
    are as high as the font size; boxes grow to the right and downwards
    from the origin, as Pillow's do.  Sizes of zero and below are refused
    by the font loader. *)

Definition newline : string := String "010"%char EmptyString.

(** Length of the longest line and number of lines of a text. *)
Fixpoint text_extent (s : string) (col widest rows : Z) : Z * Z :=
  match s with
  | EmptyString => (Z.max widest col, rows)
  | String c s =>
      if Ascii.eqb c "010"%char then text_extent s 0 (Z.max widest col) (rows + 1)
      else text_extent s (col + 1) widest rows
  end.

Definition monospace_bbox (f : Font) (text : string) : BBox :=
  let '(cols, rows) := text_extent text 0 0 1 in
  (0, 0, cols * (size f `div` 2), rows * size f).

Definition monospace : Pillow :=
  {| truetype_error := λ _ sz, if sz <=? 0 then Some ValueError else None;
     getbbox := monospace_bbox;
     multiline_textbbox := monospace_bbox;
     opened_size := λ _, (0, 0) |}.

(** Eight one-letter lines. *)
Definition column_text : string :=
  "a" +:+ newline +:+ "b" +:+ newline +:+ "c" +:+ newline +:+ "d" +:+ newline
  +:+ "e" +:+ newline +:+ "f" +:+ newline +:+ "g" +:+ newline +:+ "h".

Definition roboto : string := "source/Roboto-Regular.ttf".

(** Modelled from the spec: [FontBanner.add_image] and
    [FontLogo.new_size] of [fontbanner.py], which is not among the
    sources.  [add_image] overlays the other renderer's canvas onto the
    banner's at the given position, the other canvas resized down first if
    its size exceeds the banner's; [new_size] gives the logo a new
    dimension and renders it again.  The other methods are inherited from
    [FontPreview]. *)
Definition inheriting (fuel : nat) `{Pillow} : FontBannerModule :=
  {| banner_draw := total FontPreview.draw_default;
     banner_set_font_size := FontPreview.set_font_size fuel;
     banner_set_text_position := λ pos, total (FontPreview.set_text_position pos);
     banner_add_image := λ other pos banner,
       let img := FontPreview.image other in
       let img :=
         if tuple_gt (image_size img) (image_size (FontPreview.image banner))
         then Image_resize img (image_size (FontPreview.image banner))
         else img in
       Some ((FontPreview.set_image
                (Image_paste (FontPreview.image banner) img pos) banner,
              other), inr ());
     logo_draw := total FontPreview.draw_default;
     logo_set_font_size := FontPreview.set_font_size fuel;
     logo_set_text_position := λ pos, total (FontPreview.set_text_position pos);
     logo_new_size := λ sz,
       total (modify (FontPreview.set_dimension sz);; FontPreview.draw_default)
  |}.

(** A banner, a logo and something that is no renderer, as a caller would
    have them on the heap before building a page. *)
Definition sample_renderer (text : string) (dimension : _Size)
  : FontPreview.t :=
  let f := {| path := roboto; size := 64 |} in
  FontPreview.Build
    (Draw_text (Image_new "RGB" dimension "white") (0, 0) text "black" f
       "left")
    64 text f "RGB" None "white" "black" dimension (0, 0).

Definition sample_heap : gmap ref pyobj :=
  <[0%nat := Renderer CFontBanner (sample_renderer "a b c d e f" (1653, 560))]>
  (<[1%nat := Renderer CFontLogo (sample_renderer "Fl" (100, 100))]>
  (<[2%nat := Renderer CFontPreview (sample_renderer "a b c d e f" (700, 327))]>
  (<[3%nat := OtherObject]> ∅))).

(** [FontPage()], as the constructor leaves it. *)
Definition empty_page : FontPage.t :=
  FontPage.Build None FontPage.default_dimension "RGB"
    (Image_new "RGB" FontPage.default_dimension "white")
    PyNone PyNone PyNone PyNone.

Definition sample_fuel : nat := 100.

Definition sample_pages : FontBannerModule :=
  @inheriting sample_fuel monospace.

(** [FontPage(header=banner, body=preview, footer=banner)]: header and
    footer are the same object. *)
Definition sample_world : FontPage.world :=
  match @FontPage.__init__ monospace sample_pages None
          FontPage.default_dimension (Some 0%nat) None (Some 2%nat)
          (Some 0%nat) sample_heap with
  | Some (hp, inr p) => FontPage.World p hp
  | _ => FontPage.World empty_page sample_heap
  end.


(** [FontPage(header=banner, logo=logo)]. *)
Definition sample_logo_world : FontPage.world :=
  match @FontPage.__init__ monospace sample_pages None
          FontPage.default_dimension (Some 0%nat) (Some 1%nat) None None
          sample_heap with
  | Some (hp, inr p) => FontPage.World p hp
  | _ => FontPage.World empty_page sample_heap
  end.

(** The sample page after [set_logo(logo)]. *)
Definition sample_with_logo : FontPage.world :=
  match @FontPage.set_logo monospace sample_pages 1%nat sample_world with
  | Some (w, _) => w
  | None => sample_world
  end.

(** [FontPreview(font)] with the defaults of the constructor. *)
Definition sample_preview : FontPreview.t :=
  match @FontPreview.__init__ monospace roboto 64 "a b c d e f" "RGB"
          "white" "black" (700, 327) with
  | inr p => p
  | inl _ => sample_renderer "a b c d e f" (700, 327)
  end.

(** The preview [p] after [p.set_font_size(size)]. *)
Definition after_set_font_size (size : Z) (p : FontPreview.t)
  : FontPreview.t :=
  match @FontPreview.set_font_size monospace sample_fuel size p with
  | Some (s, _) => s
  | None => p
  end.

(** The sample page after [draw()]. *)
Definition sample_drawn : FontPage.world :=
  match @FontPage.draw monospace sample_pages sample_fuel true "black" 5
          sample_world with
  | Some (w, _) => w
  | None => sample_world
  end.

(** A page with a banner as header and two plain previews as body and
    footer, before and after [draw()]. *)
Definition sample_heap_plain : gmap ref pyobj :=
  <[4%nat := Renderer CFontPreview (sample_renderer "footer" (700, 200))]>
    sample_heap.

Definition sample_world_plain : FontPage.world :=
  match @FontPage.__init__ monospace sample_pages None
          FontPage.default_dimension (Some 0%nat) None (Some 2%nat)
          (Some 4%nat) sample_heap_plain with
  | Some (hp, inr p) => FontPage.World p hp
  | _ => FontPage.World empty_page sample_heap_plain
  end.

Definition sample_drawn_plain : FontPage.world :=
  match @FontPage.draw monospace sample_pages sample_fuel true "black" 5
          sample_world_plain with
  | Some (w, _) => w
  | None => sample_world_plain
  end.

(** What a reference names in a world, when it is a renderer. *)
Definition renderer_at (r : ref) (w : FontPage.world) : FontPreview.t :=
  match FontPage.heap w !! r with
  | Some (Renderer _ st) => st
  | _ => sample_renderer "" (0, 0)
  end.

(** ** The assignment of axes to the anchor names, in the words of the
    specification *)

Inductive horizontal : Set := LeftAligned | HCentered | RightAligned.
Inductive vertical : Set := Top | VCentered | Bottom.

Definition spec_x (a : horizontal) (container content : _Size) : Z :=
  match a with
  | LeftAligned => 0
  | RightAligned => container.1 - content.1
  | HCentered => (container.1 - content.1) `div` 2
  end.

Definition spec_y (a : vertical) (container content : _Size) : Z :=
  match a with
  | Top => 0
  | Bottom => container.2 - content.2
  | VCentered => (container.2 - content.2) `div` 2
  end.

Definition spec_anchors : list (string * (horizontal * vertical)) :=
  [ ("center", (HCentered, VCentered));
    ("top", (HCentered, Top));
    ("below", (HCentered, Bottom));
    ("rcenter", (RightAligned, VCentered));
    ("rtop", (RightAligned, Top));
    ("rbelow", (RightAligned, Bottom));
    ("lcenter", (LeftAligned, VCentered));
    ("ltop", (LeftAligned, Top));
    ("lbelow", (LeftAligned, Bottom)) ].

Definition anchor_names : list string := spec_anchors.*1.

(** Component-wise excess of a text size over a canvas, in the words of
    the specification of the shrinking loop. *)
Definition spec_exceeds (text_size canvas : _Size) : Prop :=
  text_size.1 > canvas.1 ∨ text_size.2 > canvas.2.

(** * Properties *)

(** ** Anchors *)

(** C7. Each of the nine anchor names resolves to a function of the
    container size and the content size alone whose horizontal coordinate
    is 0, [container_w - content_w] or its floor half and whose vertical
    coordinate is 0, [container_h - content_h] or its floor half, following
    the assignment of axes to names; there are nine names, and ['ltop']
    gives (0, 0) on every input. *)
Theorem anchors_follow_axes :
  length spec_anchors = 9%nat
  ∧ Forall (λ '(name, (h, v)),
       ∃ fn, CALC_POSITION !! name = Some fn
             ∧ ∀ ixy fxy, fn ixy fxy = (spec_x h ixy fxy, spec_y v ixy fxy))
      spec_anchors
  ∧ dom CALC_POSITION = list_to_set anchor_names
  ∧ ∀ ixy fxy, CALC_POSITION_item "ltop" ixy fxy = (0, 0).
Proof.
  split; [reflexivity|].
  split.
  - repeat constructor; (eexists; split; [reflexivity|]; intros [] []; reflexivity).
  - split; [|reflexivity].
    unfold CALC_POSITION. rewrite dom_list_to_map_L. reflexivity.
Qed.

(** ** FontPageTemplate *)

Module FontPageTemplateFacts.
Import FontPageTemplate.

Lemma perform_cases (c : call) (s : t) :
  perform c s =
    if requested_total c s >? page_height s
    then (font_size_written c s, inl ValueError)
    else (committed c s, inr ()).
Proof.
  destruct c, s;
    unfold perform, set_header, set_body, set_footer, __check_units,
      requested_total, mbind, Py_bind, py_bind, modify, get, mret, Py_ret,
      py_ret, raise;
    cbn;
    match goal with |- context [?a >? ?b] => destruct (a >? b) end;
    reflexivity.
Qed.

Lemma perform_rejected (c : call) (s : t) :
  requested_total c s > page_height s →
  perform c s = (font_size_written c s, inl ValueError).
Proof.
  intros Hgt. rewrite perform_cases.
  destruct (Z.gtb_spec (requested_total c s) (page_height s)); [done | lia].
Qed.

Lemma perform_accepted (c : call) (s : t) :
  requested_total c s ≤ page_height s →
  perform c s = (committed c s, inr ()).
Proof.
  intros Hle. rewrite perform_cases.
  destruct (Z.gtb_spec (requested_total c s) (page_height s)); [lia | done].
Qed.

(** A rejected call changes no band height, no text position and no
    page height. *)
Lemma rejected_keeps_units (c : call) (s : t) :
  requested_total c s > page_height s →
  let s' := (perform c s).1 in
  header_units s' = header_units s
  ∧ body_units s' = body_units s
  ∧ footer_units s' = footer_units s
  ∧ header_text_position s' = header_text_position s
  ∧ body_text_position s' = body_text_position s
  ∧ footer_text_position s' = footer_text_position s
  ∧ page_height s' = page_height s
  ∧ unit_ s' = unit_ s.
Proof.
  intros Hgt. rewrite perform_rejected by done.
  destruct c; cbn; repeat split.
Qed.

Lemma perform_within_page (c : call) (s : t) :
  within_page s → within_page (perform c s).1.
Proof.
  unfold within_page, sum_units. intros Hs. rewrite perform_cases.
  destruct (Z.gtb_spec (requested_total c s) (page_height s)) as [Hgt|Hle].
  - destruct c; cbn; exact Hs.
  - destruct c; cbn in *; lia.
Qed.

Lemma run_within_page (cs : list call) (s : t) :
  within_page s → within_page (run cs s).
Proof.
  revert s. induction cs as [|c cs IH]; intros s Hs; cbn; [done|].
  apply IH, perform_within_page, Hs.
Qed.

Lemma init_within_page (page_height : Z) :
  ∃ t0, __init__ page_height default_units_number = inr t0
        ∧ within_page t0
        ∧ FontPageTemplate.page_height t0 = page_height.
Proof.
  eexists. split; [reflexivity|]. split; [|reflexivity].
  unfold within_page, sum_units, default_units_number. cbn.
  pose proof (Z.mul_div_le page_height 6). lia.
Qed.

End FontPageTemplateFacts.

(** C4. A template built with a page height of zero or more and six units
    has band heights that add up to no more than the page height, and so
    it stays after any sequence of [set_header], [set_body] and
    [set_footer] calls, raising or not; the sequence is arbitrary, so this
    holds after each of its calls. *)
Theorem template_units_within_page (page_height : Z)
    (cs : list FontPageTemplate.call) :
  0 ≤ page_height →
  ∃ t0,
    FontPageTemplate.__init__ page_height
      FontPageTemplate.default_units_number = inr t0
    ∧ FontPageTemplate.within_page t0
    ∧ ∀ n, FontPageTemplate.within_page
             (FontPageTemplate.run (take n cs) t0).
Proof.
  intros _.
  destruct (FontPageTemplateFacts.init_within_page page_height)
    as (t0 & Hinit & Hin & _).
  exists t0. split; [exact Hinit|]. split; [exact Hin|].
  intros n. by apply FontPageTemplateFacts.run_within_page.
Qed.

Lemma template_units_within_page_witness :
  0 ≤ 3508
  ∧ ∃ t0,
      FontPageTemplate.__init__ 3508 FontPageTemplate.default_units_number
        = inr t0
      ∧ FontPageTemplate.within_page t0
      ∧ ∀ n, FontPageTemplate.within_page
               (FontPageTemplate.run
                  (take n [FontPageTemplate.SetHeader 90 1 "lcenter";
                           FontPageTemplate.SetBody 90 9 "lcenter";
                           FontPageTemplate.SetFooter 90 2 "lcenter"]) t0).
Proof.
  split; [lia|].
  apply (template_units_within_page 3508); lia.
Defined.

(** C9. With page height 3508 and six units the unit is 584; then
    [set_header(120, 1, 'center')], [set_body(170, 3, 'left')] and
    [set_footer(100, 2, 'right')] all return, and the band heights are
    584, 1752 and 1168, which add up to 3504, within 3508. *)
Theorem template_scenario :
  ∃ t0 t1 t2 t3,
    FontPageTemplate.__init__ 3508 6 = inr t0
    ∧ FontPageTemplate.unit_ t0 = 584
    ∧ FontPageTemplate.set_header 120 1 "center" t0 = (t1, inr ())
    ∧ FontPageTemplate.set_body 170 3 "left" t1 = (t2, inr ())
    ∧ FontPageTemplate.set_footer 100 2 "right" t2 = (t3, inr ())
    ∧ FontPageTemplate.header_units t3 = 584
    ∧ FontPageTemplate.body_units t3 = 1752
    ∧ FontPageTemplate.footer_units t3 = 1168
    ∧ FontPageTemplate.sum_units t3 = 3504
    ∧ FontPageTemplate.sum_units t3 ≤ FontPageTemplate.page_height t3.
Proof.
  do 4 eexists.
  repeat match goal with |- _ ∧ _ => split end;
    try (vm_compute; reflexivity).
  vm_compute. discriminate.
Qed.

(** C2. A rejected [set_header] has already stored the new header font
    size when it raises: on the default template of height 3508,
    [set_header(50, 2, 'top')] asks for 1168 + 1752 + 1168 = 4088 pixels,
    raises [ValueError], and leaves [header_font_size] at 50 instead of
    the 120 it was. *)
Theorem rejected_set_header_changes_font_size :
  ∃ t0 t1,
    FontPageTemplate.__init__ 3508 6 = inr t0
    ∧ FontPageTemplate.requested_total
        (FontPageTemplate.SetHeader 50 2 "top") t0 = 4088
    ∧ FontPageTemplate.page_height t0 = 3508
    ∧ FontPageTemplate.set_header 50 2 "top" t0 = (t1, inl ValueError)
    ∧ FontPageTemplate.header_font_size t0 = 120
    ∧ FontPageTemplate.header_font_size t1 = 50
    ∧ t1 ≠ t0.
Proof.
  do 2 eexists.
  repeat match goal with |- _ ∧ _ => split end;
    try (vm_compute; reflexivity).
  vm_compute. discriminate.
Qed.

(** ** Comparison of sizes *)

Lemma tuple_gt_lexicographic (a b : _Size) :
  tuple_gt a b = true ↔ a.1 > b.1 ∨ (a.1 = b.1 ∧ a.2 > b.2).
Proof.
  unfold tuple_gt.
  destruct (Z.eqb_spec a.1 b.1) as [H1|H1];
    [destruct (Z.eqb_spec a.2 b.2) as [H2|H2]|];
    rewrite ?Z.gtb_ltb, ?Z.ltb_lt; try lia.
Qed.

Lemma tuple_gt_false (a b : _Size) :
  tuple_gt a b = false ↔ a.1 < b.1 ∨ (a.1 = b.1 ∧ a.2 ≤ b.2).
Proof.
  pose proof (tuple_gt_lexicographic a b) as Hlex.
  destruct (tuple_gt a b).
  - split; [discriminate|]. intros Hle.
    assert (a.1 > b.1 ∨ a.1 = b.1 ∧ a.2 > b.2) by (by apply Hlex). lia.
  - split; [|done]. intros _.
    assert (¬ (a.1 > b.1 ∨ a.1 = b.1 ∧ a.2 > b.2))
      by (intros Hgt; apply Hlex in Hgt; discriminate).
    lia.
Qed.

(** Both components within the canvas end the loop. *)
Lemma tuple_gt_fits (a b : _Size) :
  a.1 ≤ b.1 → a.2 ≤ b.2 → tuple_gt a b = false.
Proof. intros. apply tuple_gt_false. lia. Qed.

(** A text that is too wide keeps the loop going. *)
Lemma tuple_gt_wide (a b : _Size) : a.1 > b.1 → tuple_gt a b = true.
Proof. intros. apply tuple_gt_lexicographic. lia. Qed.

(** When the second component is within the canvas, the comparison is the
    component-wise one. *)
Lemma tuple_gt_exceeds (a b : _Size) :
  a.2 ≤ b.2 → tuple_gt a b = true ↔ spec_exceeds a b.
Proof.
  intros. rewrite tuple_gt_lexicographic. unfold spec_exceeds. lia.
Qed.

(** The second component of a measured size is never positive when the
    box has its top above its bottom. *)
Lemma _bbox2size_height (left top right bottom : Z) :
  top ≤ bottom → (_bbox2size (left, top, right, bottom)).2 ≤ 0.
Proof. cbn. lia. Qed.

(** ** FontPreview: the shrinking loop *)

Module FontPreviewFacts.
Import FontPreview.

Section loop.
Context `{Pillow}.

(** The loop touches the font size and the font only. *)
Lemma resize_while_frame (fuel : nat) (ts : _Size) (self s' : t) r :
  __resize_while fuel ts self = Some (s', r) →
  s' = set_font (font s') (set_font_size_attr (font_size s') self).
Proof.
  revert ts self. induction fuel as [|fuel IH]; intros ts self; cbn.
  - destruct (tuple_gt ts (dimension self)); [discriminate|].
    intros [= <- <-]. by destruct self.
  - destruct (tuple_gt ts (dimension self)).
    + destruct (truetype _ _) as [e|f].
      * intros [= <- <-]. by destruct self.
      * intros Hrec. apply IH in Hrec.
        rewrite Hrec at 1. by destruct self.
    + intros [= <- <-]. by destruct self.
Qed.

(** What holds when the loop is left without an exception. *)
Lemma resize_while_returned (fuel : nat) (ts : _Size) (self s' : t) :
  __resize_while fuel ts self = Some (s', inr ()) →
  font_size s' ≤ font_size self
  ∧ (∃ n : nat, font_size s' = font_size self - 2 * Z.of_nat n)
  ∧ ((s' = self ∧ tuple_gt ts (dimension self) = false)
     ∨ (font s' = {| path := path (font self); size := font_size s' |}
        ∧ tuple_gt (measured s') (dimension s') = false)).
Proof.
  revert ts self. induction fuel as [|fuel IH]; intros ts self; cbn.
  - destruct (tuple_gt ts (dimension self)) eqn:Hgt; [discriminate|].
    intros [= <-]. split; [lia|]. split; [exists 0%nat; lia|]. by left.
  - destruct (tuple_gt ts (dimension self)) eqn:Hgt.
    + unfold truetype.
      destruct (truetype_error _ _); [discriminate|].
      intros Hrec. apply IH in Hrec as (Hle & [n Hn] & Hend).
      cbn in Hle, Hn, Hend.
      split; [lia|]. split; [exists (S n); lia|]. right.
      destruct Hend as [[-> Hfit]|[Hfont Hfit]]; [|done].
      cbn. split; [done|]. exact Hfit.
    + intros [= <-]. split; [lia|]. split; [exists 0%nat; lia|]. by left.
Qed.

(** The loop does not look at the canvas of the preview. *)
Lemma resize_while_image (fuel : nat) (ts : _Size) (self : t) (im : Image) :
  __resize_while fuel ts (set_image im self)
  = prod_map (set_image im) id <$> __resize_while fuel ts self.
Proof.
  revert ts self. induction fuel as [|fuel IH]; intros ts self; cbn.
  - by destruct (tuple_gt ts (dimension self)).
  - destruct (tuple_gt ts (dimension self)); [|done].
    destruct (truetype _ _) as [e|f]; [done|].
    apply (IH _ (set_font f (set_font_size_attr (font_size self - 2) self))).
Qed.

(** A loader that refuses sizes of zero and below stops the loop. *)
Lemma resize_while_stops (fuel : nat) (ts : _Size) (self : t) :
  (∀ p sz, sz ≤ 0 → is_Some (truetype_error p sz)) →
  font_size self ≤ 2 * Z.of_nat fuel →
  (0 < fuel)%nat →
  is_Some (__resize_while fuel ts self).
Proof.
  intros Hfloor. revert ts self.
  induction fuel as [|fuel IH]; intros ts self Hsz Hfuel; [lia|].
  cbn. destruct (tuple_gt ts (dimension self)); [|by eexists].
  unfold truetype.
  destruct (truetype_error _ _) as [e|] eqn:Hload; [by eexists|].
  cbn. apply IH; cbn; [lia|].
  destruct fuel; [|lia].
  destruct (Hfloor (path (font self)) (font_size self - 2)) as [e He];
    [lia|congruence].
Qed.

Lemma resize_while_more_fuel (fuel fuel' : nat) (ts : _Size) (self : t) r :
  __resize_while fuel ts self = Some r →
  (fuel ≤ fuel')%nat →
  __resize_while fuel' ts self = Some r.
Proof.
  revert fuel' ts self.
  induction fuel as [|fuel IH]; intros fuel' ts self; cbn.
  - destruct (tuple_gt ts (dimension self)) eqn:Hgt; [discriminate|].
    intros <- _. destruct fuel'; cbn; by rewrite Hgt.
  - destruct (tuple_gt ts (dimension self)) eqn:Hgt.
    + intros Hrun Hle. destruct fuel' as [|fuel']; [lia|].
      cbn. rewrite Hgt. destruct (truetype _ _); [done|].
      apply IH; [done | lia].
    + intros <- _. destruct fuel'; cbn; by rewrite Hgt.
Qed.

Lemma set_font_size_unfold (fuel : nat) (size : Z) (self : t) :
  set_font_size fuel size self =
    match truetype_error (path (font self)) size with
    | Some e => Some (set_font_size_attr size self, inl e)
    | None =>
        match __resize_while fuel (measured (reloaded size self))
                (reloaded size self) with
        | None => None
        | Some (s, inl e) => Some (s, inl e)
        | Some (s, inr _) => Some (set_image (rendered "left" s) s, inr ())
        end
    end.
Proof.
  unfold set_font_size, truetype, __resize, reloaded, measured. cbn.
  destruct (truetype_error _ _); [done|]. cbn.
  destruct (__resize_while _ _ _) as [[s [e|[]]]|]; done.
Qed.

(** On return the font is loaded at the stored size, the stored size
    is the requested one less an even number, and the measured size is
    not above the canvas in Python's ordering of tuples. *)
Lemma set_font_size_returned (fuel : nat) (size : Z) (self s' : t) :
  set_font_size fuel size self = Some (s', inr ()) →
  font_size s' ≤ size
  ∧ (∃ n : nat, font_size s' = size - 2 * Z.of_nat n)
  ∧ font s' = {| path := path (font self); size := font_size s' |}
  ∧ tuple_gt (measured s') (dimension s') = false
  ∧ dimension s' = dimension self
  ∧ font_text s' = font_text self
  ∧ image s' = rendered "left" s'.
Proof.
  rewrite set_font_size_unfold.
  destruct (truetype_error _ _); [discriminate|].
  destruct (__resize_while _ _ _) as [[s [e|[]]]|] eqn:Hloop;
    [discriminate| |discriminate].
  intros [= <-].
  pose proof (resize_while_frame _ _ _ _ _ Hloop) as Hframe.
  apply resize_while_returned in Hloop as (Hle & Hn & Hend).
  cbn in Hle, Hn.
  split; [exact Hle|]. split; [exact Hn|].
  assert (dimension s = dimension self ∧ font_text s = font_text self)
    as [Hdim Htext] by (rewrite Hframe; by destruct self).
  destruct Hend as [[-> Hfit]|[Hfont Hfit]].
  - by destruct self.
  - cbn in Hfont. repeat split; try done; by destruct s.
Qed.

(** The first component of the measured size is within the canvas on
    return. *)
Lemma set_font_size_width_fits (fuel : nat) (size : Z) (self s' : t) :
  set_font_size fuel size self = Some (s', inr ()) →
  (measured s').1 ≤ (dimension s').1.
Proof.
  intros Hret. apply set_font_size_returned in Hret as (_&_&_&Hfit&_).
  apply tuple_gt_false in Hfit. lia.
Qed.

(** Asking for the same size again gives the same preview. *)
Lemma set_font_size_again (fuel : nat) (size : Z) (self s' : t) :
  set_font_size fuel size self = Some (s', inr ()) →
  set_font_size fuel size s' = Some (s', inr ()).
Proof.
  intros Hret.
  pose proof (set_font_size_returned _ _ _ _ Hret) as (_&_&Hfont&_).
  revert Hret. rewrite !set_font_size_unfold.
  rewrite Hfont. cbn [path].
  destruct (truetype_error _ _); [discriminate|].
  destruct (__resize_while _ _ _) as [[s [e|[]]]|] eqn:Hloop;
    [discriminate| |discriminate].
  intros [= <-].
  pose proof (resize_while_frame _ _ _ _ _ Hloop) as Hframe.
  assert (reloaded size (set_image (rendered "left" s) s)
          = set_image (rendered "left" s) (reloaded size self)) as ->.
  { generalize (rendered "left" s). intros im.
    assert (path (font s) = path (font self)) as Hpath
      by (cbn in Hfont; by rewrite Hfont).
    unfold reloaded. cbn. rewrite Hpath.
    rewrite Hframe. by destruct self. }
  assert (measured (set_image (rendered "left" s) (reloaded size self))
          = measured (reloaded size self)) as -> by done.
  rewrite resize_while_image, Hloop. cbn.
  by destruct s.
Qed.

Lemma set_font_size_stops (fuel : nat) (size : Z) (self : t) :
  (∀ p sz, sz ≤ 0 → is_Some (truetype_error p sz)) →
  size ≤ 2 * Z.of_nat fuel →
  (0 < fuel)%nat →
  is_Some (set_font_size fuel size self).
Proof.
  intros Hfloor Hsz Hfuel. rewrite set_font_size_unfold.
  destruct (truetype_error _ _); [by eexists|].
  destruct (resize_while_stops fuel (measured (reloaded size self))
              (reloaded size self) Hfloor Hsz Hfuel) as [[s [e|[]]] ->];
    by eexists.
Qed.

End loop.

End FontPreviewFacts.

(** C1. The loop of [__resize] compares the measured size with the canvas
    as Python compares tuples, so the height is looked at only when the
    widths are equal, and the measured height is top minus bottom.  The
    preview of eight one-letter lines at size 64 on a canvas of 700 by 327
    has the box (0, 0, 32, 512): it is 512 high, the measured size is
    (32, -512), and the loop leaves it as it is.  Nor does the loop run on
    a measured size of (10, 500), which is over the canvas in height. *)
Theorem resize_ignores_height :
  ∃ p,
    @FontPreview.__init__ monospace roboto 64 column_text "RGB" "white"
      "black" (700, 327) = inr p
    ∧ @multiline_textbbox monospace (FontPreview.font p)
        (FontPreview.font_text p) = (0, 0, 32, 512)
    ∧ @get_multiline_textsize monospace (FontPreview.font_text p)
        (FontPreview.font p) = (32, -512)
    ∧ FontPreview.dimension p = (700, 327)
    ∧ (∀ fuel, @FontPreview.__resize monospace fuel p = Some (p, inr ()))
    ∧ spec_exceeds (10, 500) (700, 327)
    ∧ tuple_gt (10, 500) (700, 327) = false
    ∧ (∀ fuel, @FontPreview.__resize_while monospace fuel (10, 500) p
               = Some (p, inr ())).
Proof.
  eexists. split; [vm_compute; reflexivity|].
  repeat match goal with |- _ ∧ _ => split end;
    try (vm_compute; reflexivity).
  - intros [|fuel]; vm_compute; reflexivity.
  - right. cbn. lia.
  - intros [|fuel]; vm_compute; reflexivity.
Qed.

(** C5. [set_font_size(64)] on the same preview returns with the font
    size at 64 although the text, 512 pixels high, does not fit the canvas
    of height 327. *)
Theorem set_font_size_keeps_tall_text :
  ∃ p p',
    @FontPreview.__init__ monospace roboto 64 column_text "RGB" "white"
      "black" (700, 327) = inr p
    ∧ (∀ fuel, @FontPreview.set_font_size monospace fuel 64 p
               = Some (p', inr ()))
    ∧ FontPreview.font_size p' = 64
    ∧ FontPreview.dimension p' = (700, 327)
    ∧ @multiline_textbbox monospace (FontPreview.font p')
        (FontPreview.font_text p') = (0, 0, 32, 512)
    ∧ 512 > (FontPreview.dimension p').2.
Proof.
  do 2 eexists. split; [vm_compute; reflexivity|].
  split; [intros [|fuel]; vm_compute; reflexivity|].
  repeat match goal with |- _ ∧ _ => split end;
    vm_compute; reflexivity.
Qed.

(** ** FontPreview: text position *)




(** ** FontPage: what the setters change *)

Module FontPageFacts.
Import FontPage.

Lemma pyd_bind_Some {S A B} (m : PyD S A) (k : A → PyD S B) s s' r :
  (m ≫= k) s = Some (s', r) →
  (∃ e, m s = Some (s', inl e) ∧ r = inl e)
  ∨ (∃ s1 a, m s = Some (s1, inr a) ∧ k a s1 = Some (s', r)).
Proof.
  unfold mbind, PyD_bind, pyd_bind.
  destruct (m s) as [[s1 [e|a]]|]; [|eauto|discriminate].
  intros [= <- <-]. left. eauto.
Qed.

Lemma pyd_bind_inr {S A B} (m : PyD S A) (k : A → PyD S B) s s' b :
  (m ≫= k) s = Some (s', inr b) →
  ∃ s1 a, m s = Some (s1, inr a) ∧ k a s1 = Some (s', inr b).
Proof.
  intros Hrun. apply pyd_bind_Some in Hrun as [(e & _ & [=])|Hrun]; done.
Qed.

Lemma pyd_bind_run {S A B} (m : PyD S A) (k : A → PyD S B) s s1 a :
  m s = Some (s1, inr a) → (m ≫= k) s = k a s1.
Proof. unfold mbind, PyD_bind, pyd_bind. by intros ->. Qed.

Lemma changes_refl X w : changes X w w.
Proof. done. Qed.

Lemma changes_trans X w1 w2 w3 :
  changes X w1 w2 → changes X w2 w3 → changes X w1 w3.
Proof.
  intros (Hs1 & Hc1 & Hf1) (Hs2 & Hc2 & Hf2). repeat split.
  - congruence.
  - intros r. by rewrite Hc2.
  - intros r Hr. rewrite Hf2, Hf1; done.
Qed.

Lemma changes_weaken X Y w w' :
  X ⊆ Y → changes X w w' → changes Y w w'.
Proof.
  intros Hsub (Hs & Hc & Hf). repeat split; [done..|].
  intros r Hr. apply Hf. set_solver.
Qed.

Lemma changes_update (X : list ref) (r : ref) cls st st' (w : world) :
  r ∈ X →
  heap w !! r = Some (Renderer cls st) →
  changes X w (World (self w) (<[r := Renderer cls st']> (heap w))).
Proof.
  intros HX Hr. repeat split; cbn.
  - intros x. destruct (decide (r = x)) as [->|Hne].
    + by rewrite lookup_insert_eq, Hr.
    + by rewrite lookup_insert_ne.
  - intros x Hx. rewrite lookup_insert_ne; [done|]. by intros ->.
Qed.

Lemma deref_run (r : ref) (w w' : world) res :
  deref r w = Some (w', res) →
  w' = w
  ∧ match res with
    | inr (cls, st) => heap w !! r = Some (Renderer cls st)
    | inl e => e = AttributeError
    end.
Proof.
  unfold deref. destruct (heap w !! r) as [[cls st|]|];
    intros [= <- <-]; done.
Qed.

Lemma read_run (a : t → attr) (w w' : world) res :
  read a w = Some (w', res) →
  w' = w
  ∧ match res with
    | inr (Some r) => a (self w) = Ref r
    | inr None => a (self w) = PyNone
    | inl e => e = AttributeError ∧ a (self w) = Unset
    end.
Proof. unfold read. destruct (a (self w)); intros [= <- <-]; done. Qed.

Lemma assign_changes (r : ref) f (w w' : world) res :
  assign r f w = Some (w', res) → changes [r] w w'.
Proof.
  unfold assign. destruct (heap w !! r) as [[cls st|]|] eqn:Hr;
    intros [= <- <-]; try apply changes_refl.
  eapply changes_update; [apply list_elem_of_here | done].
Qed.

Lemma call_changes (r : ref) m (w w' : world) res :
  call r m w = Some (w', res) → changes [r] w w'.
Proof.
  unfold call. destruct (heap w !! r) as [[cls st|]|] eqn:Hr;
    [|intros [= <- <-]; apply changes_refl..].
  destruct (m cls st) as [[st' res']|]; [|discriminate].
  intros [= <- <-]. eapply changes_update; [apply list_elem_of_here | done].
Qed.

Lemma call_returned (r : ref) m (w w' : world) :
  call r m w = Some (w', inr ()) →
  ∃ cls st, heap w' !! r = Some (Renderer cls st).
Proof.
  unfold call. destruct (heap w !! r) as [[cls st|]|] eqn:Hr;
    [|discriminate..].
  destruct (m cls st) as [[st' res']|]; [|discriminate].
  intros [= <- ->]. cbn. rewrite lookup_insert_eq. eauto.
Qed.

Section setters.
Context `{Pillow} `{FontBannerModule}.
Variable fuel : nat.

Lemma call_add_image_changes (banner other : ref) pos (w w' : world) res :
  call_add_image banner other pos w = Some (w', res) →
  changes [banner; other] w w'.
Proof.
  unfold call_add_image.
  destruct (heap w !! banner) as [[[] bst|]|] eqn:Hb;
    try (intros [= <- <-]; apply changes_refl).
  destruct (heap w !! other) as [[ocls ost|]|] eqn:Ho;
    try (intros [= <- <-]; apply changes_refl).
  destruct (banner_add_image _ _ _) as [[[bst' ost'] res']|];
    [|discriminate].
  intros [= <- <-].
  eapply changes_trans.
  - exact (changes_update _ banner CFontBanner bst bst' w
             (list_elem_of_here _ _) Hb).
  - eapply (changes_update _ other ocls
              (if decide (banner = other) then bst' else ost) ost'
              (World _ _)).
    + apply list_elem_of_further, list_elem_of_here.
    + cbn. case_decide as Heq.
      * subst other. rewrite lookup_insert_eq.
        rewrite Hb in Ho. by injection Ho as <- _.
      * by rewrite lookup_insert_ne.
Qed.

Lemma widen_changes (r : ref) (w w' : world) res :
  widen r w = Some (w', res) → changes [r] w w'.
Proof.
  unfold widen. intros Hrun.
  apply pyd_bind_Some in Hrun as [(e & [=] & _)|(w1 & s & [= <- <-] & Hrun)].
  apply pyd_bind_Some in Hrun
    as [(e & Hd & _)|(w1 & [cls st] & Hd & Hrun)];
    apply deref_run in Hd as [-> Hd]; [apply changes_refl|].
  case_bool_decide.
  - apply pyd_bind_Some in Hrun as [(e & Ha & _)|(w1 & [] & Ha & Hrun)].
    + by eapply assign_changes.
    + eapply changes_trans;
        [by eapply assign_changes | by eapply call_changes].
  - injection Hrun as <- _. apply changes_refl.
Qed.

Lemma class_of_renderer (o : option pyobj) cls :
  class_of o = Some (Some cls) → ∃ st, o = Some (Renderer cls st).
Proof. destruct o as [[]|]; intros [=]; subst; eauto. Qed.

Lemma changes_renderer X (w w' : world) (r : ref) cls st :
  changes X w w' →
  heap w !! r = Some (Renderer cls st) →
  ∃ st', heap w' !! r = Some (Renderer cls st').
Proof.
  intros (_ & Hc & _) Hr. apply class_of_renderer.
  by rewrite Hc, Hr.
Qed.

(** The three setters store the reference and touch the given object
    only. *)
Lemma set_header_run (h : ref) (w w' : world) :
  set_header h w = Some (w', inr ()) →
  self w' = set_header_attr (Ref h) (self w)
  ∧ changes [h] w (World (self w) (heap w')).
Proof.
  unfold set_header.
  destruct (isinstance_FontBanner _); [|discriminate].
  intros Hrun. apply pyd_bind_inr in Hrun as (w1 & [] & Hw & [= <-]).
  apply widen_changes in Hw as (Hs & Hc & Hf). cbn.
  split; [by rewrite Hs|]. done.
Qed.

Lemma set_body_run (b : ref) (w w' : world) :
  set_body b w = Some (w', inr ()) →
  self w' = set_body_attr (Ref b) (self w)
  ∧ changes [b] w (World (self w) (heap w')).
Proof.
  unfold set_body.
  destruct (isinstance_FontPreview _); [|discriminate]. cbn.
  intros Hrun. apply pyd_bind_inr in Hrun as (w1 & [] & Hw & [= <-]).
  apply widen_changes in Hw as (Hs & Hc & Hf). cbn.
  split; [by rewrite Hs|]. done.
Qed.

Lemma set_footer_run (f : ref) (w w' : world) :
  set_footer f w = Some (w', inr ()) →
  self w' = set_footer_attr (Ref f) (self w)
  ∧ changes [f] w (World (self w) (heap w')).
Proof.
  unfold set_footer.
  destruct (isinstance_FontPreview _); [|discriminate]. cbn.
  intros Hrun. apply pyd_bind_inr in Hrun as (w1 & [] & Hw & [= <-]).
  apply widen_changes in Hw as (Hs & Hc & Hf). cbn.
  split; [by rewrite Hs|]. done.
Qed.

(** [set_logo] needs a header, leaves the page object as it is and
    touches the header and the logo only. *)
Lemma set_logo_run (l : ref) (w w' : world) :
  set_logo l w = Some (w', inr ()) →
  ∃ h, header (self w) = Ref h ∧ changes [h; l] w w'.
Proof.
  unfold set_logo.
  destruct (isinstance_FontLogo _); [|discriminate]. cbn.
  intros Hrun.
  apply pyd_bind_inr in Hrun as (w1 & hdr & Hread & Hrun).
  apply read_run in Hread as [-> Hhdr].
  destruct hdr as [h|]; [|discriminate].
  exists h. split; [exact Hhdr|].
  apply pyd_bind_inr in Hrun as (w1 & [hcls hst] & Hd & Hrun).
  apply deref_run in Hd as [-> _].
  apply pyd_bind_inr in Hrun as (w1 & [lcls lst] & Hd & Hrun).
  apply deref_run in Hd as [-> _].
  apply pyd_bind_inr in Hrun as (w1 & [] & Hsize & Hrun).
  apply pyd_bind_inr in Hrun as (w2 & [hcls' hst'] & Hd & Hrun).
  apply deref_run in Hd as [-> _].
  apply call_add_image_changes in Hrun.
  eapply changes_trans; [|exact Hrun].
  destruct (tuple_lt _ _).
  - apply call_changes in Hsize.
    eapply changes_weaken; [|exact Hsize].
    intros x Hx. apply list_elem_of_further. exact Hx.
  - injection Hsize as <-. apply changes_refl.
Qed.

Lemma compose_part_run (r : ref) units font_size pos (w w' : world) :
  compose_part fuel r units font_size pos w = Some (w', inr ()) →
  changes [r] w w' ∧ ∃ cls st, heap w' !! r = Some (Renderer cls st).
Proof.
  unfold compose_part. intros Hrun.
  apply pyd_bind_inr in Hrun as (w1 & s & [= <- <-] & Hrun).
  apply pyd_bind_inr in Hrun as (w1 & [cls st] & Hd & Hrun).
  apply deref_run in Hd as [-> _].
  apply pyd_bind_inr in Hrun as (w1 & [] & Hdim & Hrun).
  apply pyd_bind_inr in Hrun as (w2 & [] & Hsize & Hpos).
  split.
  - eapply changes_trans; [|eapply changes_trans].
    + case_bool_decide.
      * by eapply assign_changes.
      * injection Hdim as <-. apply changes_refl.
    + by eapply call_changes.
    + by eapply call_changes.
  - by eapply call_returned.
Qed.

Lemma default_template_run (w w' : world) res :
  default_template w = Some (w', res) →
  res = inr ()
  ∧ heap w' = heap w
  ∧ ∃ tpl,
      self w' = set_template (Some tpl) (self w)
      ∧ (template (self w) = Some tpl
         ∨ (template (self w) = None
            ∧ FontPageTemplate.__init__ (dimension (self w)).2
                FontPageTemplate.default_units_number = inr tpl)).
Proof.
  unfold default_template. intros Hrun.
  apply pyd_bind_Some in Hrun as [(e & [=] & _)|(w1 & s & [= <- <-] & Hrun)].
  destruct (template (self w)) as [tpl|] eqn:Htpl.
  - injection Hrun as <- <-. repeat split. exists tpl.
    split; [|by left]. destruct w as [[] ?]; cbn in *. by subst.
  - cbn in Hrun. injection Hrun as <- <-. repeat split.
    eexists. split; [reflexivity|]. right. done.
Qed.

Lemma the_template_run (w w' : world) tpl :
  the_template w = Some (w', inr tpl) →
  w' = w ∧ template (self w) = Some tpl.
Proof.
  unfold the_template. intros Hrun.
  apply pyd_bind_inr in Hrun as (w1 & s & [= <- <-] & Hrun).
  destruct (template (self w)); [|discriminate].
  by injection Hrun as <- <-.
Qed.

(** What a completed [__compose] leaves: a blank canvas of the height
    of the template, the three parts in place, each of them a renderer,
    and no other object touched. *)
Lemma compose_run_full (w w1 : world) :
  __compose fuel w = Some (w1, inr ()) →
  ∃ h b f tpl,
    (template (self w) = Some tpl
     ∨ (template (self w) = None
        ∧ FontPageTemplate.__init__ (dimension (self w)).2
            FontPageTemplate.default_units_number = inr tpl))
    ∧ header (self w) = Ref h
    ∧ body (self w) = Ref b
    ∧ footer (self w) = Ref f
    ∧ self w1
      = set_page (blank tpl (self w))
          (set_dimension
             ((dimension (self w)).1, FontPageTemplate.page_height tpl)
             (set_template (Some tpl) (self w)))
    ∧ changes [h; b; f] (World (self w1) (heap w)) w1
    ∧ (∃ cls st, heap w1 !! h = Some (Renderer cls st))
    ∧ (∃ cls st, heap w1 !! b = Some (Renderer cls st))
    ∧ (∃ cls st, heap w1 !! f = Some (Renderer cls st)).
Proof.
  unfold __compose. intros Hrun.
  apply pyd_bind_inr in Hrun as (w2 & [] & Htpl & Hrun).
  apply default_template_run in Htpl as (_ & Hheap2 & tpl & Hself2 & Hrel).
  apply pyd_bind_inr in Hrun as (? & h & Hread & Hrun).
  apply read_run in Hread as [-> Hh].
  destruct h as [h|]; [|discriminate].
  apply pyd_bind_inr in Hrun as (? & b & Hread & Hrun).
  apply read_run in Hread as [-> Hb].
  destruct b as [b|]; [|discriminate].
  apply pyd_bind_inr in Hrun as (? & f & Hread & Hrun).
  apply read_run in Hread as [-> Hf].
  destruct f as [f|]; [|discriminate].
  apply pyd_bind_inr in Hrun as (? & tpl' & Ht & Hrun).
  apply the_template_run in Ht as [-> Ht].
  assert (tpl' = tpl) as ->
    by (rewrite Hself2 in Ht; cbn in Ht; congruence).
  apply pyd_bind_inr in Hrun as (w3 & [] & [= <-] & Hrun).
  apply pyd_bind_inr in Hrun as (w4 & [] & [= <-] & Hrun).
  apply pyd_bind_inr in Hrun as (w5 & [] & Hset_h & Hrun).
  apply set_header_run in Hset_h as [Hself5 Hheap5].
  apply pyd_bind_inr in Hrun as (? & tpl5 & Ht5 & Hrun).
  apply the_template_run in Ht5 as [-> _].
  apply pyd_bind_inr in Hrun as (w6 & [] & Hpart_h & Hrun).
  apply compose_part_run in Hpart_h as [Hch6 (hcls & hst & Hh6)].
  apply pyd_bind_inr in Hrun as (w7 & [] & Hset_b & Hrun).
  apply set_body_run in Hset_b as [Hself7 Hheap7].
  apply pyd_bind_inr in Hrun as (? & tpl7 & Ht7 & Hrun).
  apply the_template_run in Ht7 as [-> _].
  apply pyd_bind_inr in Hrun as (w8 & [] & Hpart_b & Hrun).
  apply compose_part_run in Hpart_b as [Hch8 (bcls & bst & Hb8)].
  apply pyd_bind_inr in Hrun as (w9 & [] & Hset_f & Hrun).
  apply set_footer_run in Hset_f as [Hself9 Hheap9].
  apply pyd_bind_inr in Hrun as (? & tpl9 & Ht9 & Hrun).
  apply the_template_run in Ht9 as [-> _].
  apply compose_part_run in Hrun as [Hch1 (fcls & fst & Hf1)].
  cbn in *.
  exists h, b, f, tpl.
  assert (self w1
          = set_page (blank tpl (self w))
              (set_dimension
                 ((dimension (self w)).1,
                  FontPageTemplate.page_height tpl)
                 (set_template (Some tpl) (self w)))) as Hself1.
  { destruct Hch1 as (Hs1 & _), Hch8 as (Hs8 & _), Hch6 as (Hs6 & _).
    rewrite Hs1, Hself9, Hs8, Hself7, Hs6, Hself5, Hself2.
    rewrite Hself2 in Hh, Hb, Hf. unfold blank.
    destruct (self w); cbn in *. by subst. }
  (* the heap, step by step *)
  assert (∀ X (wa wb : world) s, changes X wa wb →
            changes X (World s (heap wa)) (World s (heap wb))) as Hre.
  { intros X wa wb s (_ & Hc & Hfr). done. }
  assert (∀ X Y (wa wb : world), (∀ x, x ∈ X → x ∈ Y) →
            changes X wa wb → changes Y wa wb) as Hwk.
  { intros X Y wa wb Hsub. by apply changes_weaken. }
  assert (changes [h; b; f] (World (self w1) (heap w))
            (World (self w1) (heap w5))) as H5.
  { apply (Hre _ _ _ (self w1)) in Hheap5. cbn in Hheap5.
    rewrite Hheap2 in Hheap5.
    eapply Hwk; [|exact Hheap5].
    intros x ->%list_elem_of_singleton. apply list_elem_of_here. }
  assert (changes [h; b; f] (World (self w1) (heap w5))
            (World (self w1) (heap w6))) as H6.
  { eapply Hwk; [|exact (Hre _ _ _ (self w1) Hch6)].
    intros x ->%list_elem_of_singleton. apply list_elem_of_here. }
  assert (changes [h; b; f] (World (self w1) (heap w6))
            (World (self w1) (heap w7))) as H7.
  { apply (Hre _ _ _ (self w1)) in Hheap7. cbn in Hheap7.
    eapply Hwk; [|exact Hheap7].
    intros x ->%list_elem_of_singleton.
    apply list_elem_of_further, list_elem_of_here. }
  assert (changes [h; b; f] (World (self w1) (heap w7))
            (World (self w1) (heap w8))) as H8.
  { eapply Hwk; [|exact (Hre _ _ _ (self w1) Hch8)].
    intros x ->%list_elem_of_singleton.
    apply list_elem_of_further, list_elem_of_here. }
  assert (changes [h; b; f] (World (self w1) (heap w8))
            (World (self w1) (heap w9))) as H9.
  { apply (Hre _ _ _ (self w1)) in Hheap9. cbn in Hheap9.
    eapply Hwk; [|exact Hheap9].
    intros x ->%list_elem_of_singleton.
    do 2 apply list_elem_of_further. apply list_elem_of_here. }
  assert (changes [h; b; f] (World (self w1) (heap w9))
            (World (self w1) (heap w1))) as H1'.
  { eapply Hwk; [|exact (Hre _ _ _ (self w1) Hch1)].
    intros x ->%list_elem_of_singleton.
    do 2 apply list_elem_of_further. apply list_elem_of_here. }
  assert (World (self w1) (heap w1) = w1) as Hw1 by by destruct w1.
  rewrite Hw1 in H1'.
  rewrite Hself2 in Hh, Hb, Hf. cbn in Hh, Hb, Hf.
  split; [exact Hrel|].
  split; [exact Hh|]. split; [exact Hb|]. split; [exact Hf|].
  split; [exact Hself1|].
  split.
  { exact (changes_trans _ _ _ _ H5
             (changes_trans _ _ _ _ H6
                (changes_trans _ _ _ _ H7
                   (changes_trans _ _ _ _ H8
                      (changes_trans _ _ _ _ H9 H1'))))). }
  split.
  { destruct (changes_renderer _ _ _ h hcls hst
                (changes_trans _ _ _ _ H7
                   (changes_trans _ _ _ _ H8
                      (changes_trans _ _ _ _ H9 H1'))) Hh6)
      as [st' Hst']. eauto. }
  split.
  { destruct (changes_renderer _ _ _ b bcls bst
                (changes_trans _ _ _ _ H9 H1') Hb8)
      as [st' Hst']. eauto. }
  eauto.
Qed.





End setters.

End FontPageFacts.


(** The sample page is what the constructor builds. *)
Example sample_world_constructed :
  @FontPage.__init__ monospace sample_pages None FontPage.default_dimension
    (Some 0%nat) None (Some 2%nat) (Some 0%nat) sample_heap
  = Some (FontPage.heap sample_world, inr (FontPage.self sample_world)).
Proof. vm_compute. reflexivity. Qed.

Example empty_page_constructed :
  @FontPage.__init__ monospace sample_pages None FontPage.default_dimension
    None None None None ∅
  = Some (∅, inr empty_page).
Proof. vm_compute. reflexivity. Qed.


(** C10. [set_logo], when it returns, leaves every attribute of the page
    as it was, the logo attribute included, and touches no object but the
    header and the logo; so a page constructed with a header and a logo
    has its header stored and its logo attribute never assigned. *)
Theorem set_logo_stores_no_logo `{Pillow} `{FontBannerModule} :
  (∀ (l : ref) (w w' : FontPage.world),
     FontPage.set_logo l w = Some (w', inr ()) →
     FontPage.self w' = FontPage.self w
     ∧ ∃ h, FontPage.header (FontPage.self w) = Ref h
            ∧ ∀ r, r ≠ h → r ≠ l →
                   FontPage.heap w' !! r = FontPage.heap w !! r)
  ∧ (∀ template dimension (h l : ref) body footer hp hp' p,
       FontPage.__init__ template dimension (Some h) (Some l) body footer hp
         = Some (hp', inr p) →
       FontPage.logo p = Unset ∧ FontPage.header p = Ref h).
Proof.
  split.
  - intros l w w' Hrun.
    apply FontPageFacts.set_logo_run in Hrun as (h & Hh & Hs & _ & Hfr).
    split; [exact Hs|]. exists h. split; [exact Hh|].
    intros r Hrh Hrl. apply Hfr.
    rewrite !not_elem_of_cons. repeat split; [done..|]. apply not_elem_of_nil.
  - intros template dimension h l body footer hp hp' p. unfold FontPage.__init__.
    match goal with
    | |- match ?m ?w0 with _ => _ end = _ → _ =>
        destruct (m w0) as [[w [e|[]]]|] eqn:Hrun; [discriminate| |discriminate]
    end.
    intros [= <- <-].
    apply FontPageFacts.pyd_bind_inr in Hrun as (w1 & [] & Hheader & Hrun).
    apply FontPageFacts.set_header_run in Hheader as [Hs1 _].
    apply FontPageFacts.pyd_bind_inr in Hrun as (w2 & [] & Hlogo & Hrun).
    apply FontPageFacts.set_logo_run in Hlogo as (_ & _ & Hs2 & _).
    apply FontPageFacts.pyd_bind_inr in Hrun as (w3 & [] & Hbody & Hfooter).
    assert (FontPage.logo (FontPage.self w3) = Unset
            ∧ FontPage.header (FontPage.self w3) = Ref h) as [Hl3 Hh3].
    { destruct body as [b|].
      - apply FontPageFacts.set_body_run in Hbody as [-> _].
        cbn. by rewrite Hs2, Hs1.
      - injection Hbody as <-. cbn. by rewrite Hs2, Hs1. }
    destruct footer as [f|].
    + apply FontPageFacts.set_footer_run in Hfooter as [-> _]. done.
    + injection Hfooter as <-. done.
Qed.

Lemma set_logo_stores_no_logo_witness :
  @FontPage.set_logo monospace sample_pages 1%nat sample_world
    = Some (sample_with_logo, inr ())
  ∧ FontPage.self sample_with_logo = FontPage.self sample_world
  ∧ FontPage.heap sample_with_logo !! 2%nat
    = FontPage.heap sample_world !! 2%nat
  ∧ @FontPage.__init__ monospace sample_pages None
      FontPage.default_dimension (Some 0%nat) (Some 1%nat) None None
      sample_heap
    = Some (FontPage.heap sample_logo_world,
            inr (FontPage.self sample_logo_world))
  ∧ FontPage.logo (FontPage.self sample_logo_world) = Unset
  ∧ FontPage.header (FontPage.self sample_logo_world) = Ref 0%nat.
Proof.
  assert (@FontPage.set_logo monospace sample_pages 1%nat sample_world
          = Some (sample_with_logo, inr ())) as Hset
    by (vm_compute; reflexivity).
  assert (@FontPage.__init__ monospace sample_pages None
            FontPage.default_dimension (Some 0%nat) (Some 1%nat) None None
            sample_heap
          = Some (FontPage.heap sample_logo_world,
                  inr (FontPage.self sample_logo_world))) as Hinit
    by (vm_compute; reflexivity).
  destruct (proj1 (@set_logo_stores_no_logo monospace sample_pages)
              1%nat sample_world sample_with_logo Hset)
    as (Hself & h & Hh & Hframe).
  assert (h = 0%nat) as -> by (vm_compute in Hh; congruence).
  destruct (proj2 (@set_logo_stores_no_logo monospace sample_pages)
              None FontPage.default_dimension 0%nat 1%nat None None
              sample_heap _ _ Hinit) as [Hlogo Hheader].
  split; [exact Hset|]. split; [exact Hself|].
  split; [apply Hframe; discriminate|].
  split; [exact Hinit|]. split; [exact Hlogo | exact Hheader].
Defined.

(** ** FontBooklet *)

Module FontBookletFacts.
Import FontBooklet.

(** A directory exists, so the [mkdir] of [save] is never reached. *)
Lemma is_dir_exists (p : fspath) (fs : gmap fspath fsnode) :
  Path.is_dir p fs = true → Path.exists_ p fs = true.
Proof.
  unfold Path.is_dir, Path.exists_. destruct p; [done|].
  by destruct (fs !! _) as [[]|].
Qed.

(** Whatever is not a directory is refused, and nothing is written. *)
Lemma save_not_a_directory (folder : fspath) (extension : string) (self : t)
    (fs : gmap fspath fsnode) :
  Path.is_dir folder fs = false →
  save folder extension self fs = (fs, inl NotADirectoryError).
Proof.
  intros Hdir. unfold save, mbind, Py_bind, py_bind, get. cbn.
  by rewrite Hdir.
Qed.

(** A folder that does not exist is not a directory. *)
Lemma save_missing_folder (folder : fspath) (extension : string) (self : t)
    (fs : gmap fspath fsnode) :
  Path.exists_ folder fs = false →
  save folder extension self fs = (fs, inl NotADirectoryError).
Proof.
  intros Hmissing. apply save_not_a_directory.
  destruct (Path.is_dir folder fs) eqn:Hdir; [|done].
  apply is_dir_exists in Hdir. congruence.
Qed.








End FontBookletFacts.

(** C3. [save] on a folder that does not exist raises
    [NotADirectoryError] and creates nothing: a booklet of two pages saved
    to the missing folder [out] leaves the file system empty. *)
Theorem booklet_save_refuses_missing_folder :
  ∃ book,
    FontBooklet.__init__ [APage empty_page; APage empty_page] = inr book
    ∧ Path.exists_ ["out"] ∅ = false
    ∧ FontBooklet.save ["out"] "png" book ∅ = (∅, inl NotADirectoryError).
Proof.
  eexists. split; [reflexivity|]. split; [reflexivity|].
  by apply FontBookletFacts.save_missing_folder.
Qed.

(** ** The assertions of [test_fp.py], on the model *)

(** [test_template_page] *)
Example test_template_page :
  ∃ t0 t3,
    FontPageTemplate.__init__ 3508 FontPageTemplate.default_units_number
      = inr t0
    ∧ FontPageTemplate.run
        [FontPageTemplate.SetHeader 120 1 "center";
         FontPageTemplate.SetBody 170 3 "left";
         FontPageTemplate.SetFooter 100 2 "right"] t0 = t3
    ∧ FontPageTemplate.header_text_position t3 = "center"
    ∧ FontPageTemplate.header_font_size t3 = 120
    ∧ FontPageTemplate.header_units t3 = FontPageTemplate.unit_ t3 * 1
    ∧ FontPageTemplate.body_text_position t3 = "left"
    ∧ FontPageTemplate.body_font_size t3 = 170
    ∧ FontPageTemplate.body_units t3 = FontPageTemplate.unit_ t3 * 3
    ∧ FontPageTemplate.footer_text_position t3 = "right"
    ∧ FontPageTemplate.footer_font_size t3 = 100
    ∧ FontPageTemplate.footer_units t3 = FontPageTemplate.unit_ t3 * 2.
Proof. do 2 eexists. repeat split; vm_compute; reflexivity. Qed.

(** [test_font_size]: [fp.set_font_size(70)] and [fp.font.size == 70]. *)
Example test_font_size :
  ∃ p p',
    @FontPreview.__init__ monospace roboto 64 "a b c d e f" "RGB" "white"
      "black" (700, 327) = inr p
    ∧ @FontPreview.set_font_size monospace sample_fuel 70 p
      = Some (p', inr ())
    ∧ size (FontPreview.font p') = 70.
Proof. do 2 eexists. repeat split; vm_compute; reflexivity. Qed.

(** [test_parse_not_fontpage_on_fontbooklet] *)
Example test_parse_not_fontpage_on_fontbooklet :
  FontBooklet.__init__ [NotAPage; NotAPage; NotAPage] = inl TypeError.
Proof. reflexivity. Qed.

(** [test_set_dimension]: after [draw] the canvas of the page has the
    dimension of the page. *)
Example test_set_dimension :
  ∃ w2,
    @FontPage.draw monospace sample_pages sample_fuel true "black" 5
      sample_world = Some (w2, inr ())
    ∧ @image_size monospace (FontPage.page (FontPage.self w2))
      = FontPage.dimension (FontPage.self w2).
Proof. eexists. split; vm_compute; reflexivity. Qed.

(** * Further properties of the code *)

(** ** Anchors: where the content lands *)

Lemma half_bounds (a : Z) : 2 * (a `div` 2) ≤ a ≤ 2 * (a `div` 2) + 1.
Proof.
  pose proof (Z.div_mod a 2 ltac:(lia)).
  pose proof (Z.mod_pos_bound a 2 ltac:(lia)). lia.
Qed.

Lemma anchor_items :
  Forall (λ '(name, (h, v)),
     ∀ ixy fxy,
       CALC_POSITION_item name ixy fxy = (spec_x h ixy fxy, spec_y v ixy fxy))
    spec_anchors.
Proof. repeat constructor; intros [] []; reflexivity. Qed.

(** X1. A content that is no larger than its container is placed inside
    it by every one of the nine anchors: the offset is not negative and
    offset plus content size stays within the container, on both axes. *)
Theorem anchors_keep_content_inside (ixy fxy : _Size) :
  0 ≤ fxy.1 ≤ ixy.1 →
  0 ≤ fxy.2 ≤ ixy.2 →
  Forall (λ name,
     let xy := CALC_POSITION_item name ixy fxy in
     0 ≤ xy.1 ∧ xy.1 + fxy.1 ≤ ixy.1 ∧ 0 ≤ xy.2 ∧ xy.2 + fxy.2 ≤ ixy.2)
    anchor_names.
Proof.
  intros Hw Hh. unfold anchor_names. apply Forall_fmap.
  eapply Forall_impl; [apply anchor_items|].
  intros [name [h v]] Hitem. cbn. rewrite Hitem. cbn.
  pose proof (half_bounds (ixy.1 - fxy.1)).
  pose proof (half_bounds (ixy.2 - fxy.2)).
  destruct h, v; cbn; lia.
Qed.

Lemma anchors_keep_content_inside_witness :
  Forall (λ name,
     let xy := CALC_POSITION_item name (700, 327) (385, 70) in
     0 ≤ xy.1 ∧ xy.1 + 385 ≤ 700 ∧ 0 ≤ xy.2 ∧ xy.2 + 70 ≤ 327)
    anchor_names.
Proof.
  apply (anchors_keep_content_inside (700, 327) (385, 70)); cbn; lia.
Defined.

(** X2. The ['center'] anchor splits the free space evenly: on each axis
    the margin after the content is the margin before it or one more,
    whatever the sizes (also for a content larger than the container). *)
Theorem center_margins_balanced (ixy fxy : _Size) :
  let xy := CALC_POSITION_item "center" ixy fxy in
  0 ≤ (ixy.1 - fxy.1 - xy.1) - xy.1 ≤ 1
  ∧ 0 ≤ (ixy.2 - fxy.2 - xy.2) - xy.2 ≤ 1.
Proof.
  change (CALC_POSITION_item "center") with Anchor.center.
  cbn. unfold floordiv2.
  pose proof (half_bounds (ixy.1 - fxy.1)).
  pose proof (half_bounds (ixy.2 - fxy.2)). lia.
Qed.

(** ** FontPageTemplate: what the setters accept *)

Module FontPageTemplateMore.
Import FontPageTemplate.

Lemma unit_page_height_kept (c : call) (s : t) :
  unit_ (perform c s).1 = unit_ s
  ∧ page_height (perform c s).1 = page_height s.
Proof.
  rewrite FontPageTemplateFacts.perform_cases.
  destruct (_ >? _); destruct c; done.
Qed.

Lemma requested_total_kept (c : call) (s : t) :
  requested_total c (perform c s).1 = requested_total c s.
Proof.
  rewrite FontPageTemplateFacts.perform_cases.
  destruct (_ >? _); destruct c; done.
Qed.

End FontPageTemplateMore.

(** X3. [set_header] returns exactly when the band height it asks for
    plus the current heights of body and footer is within the page height,
    and raises [ValueError] otherwise.  When it returns, the header holds
    the given font size, the unit times the given count, and the given
    text position, and body, footer, unit and page height are as before. *)
Theorem setter_accepts_within_page (s : FontPageTemplate.t)
    (font_size units : Z) (text_position : string) :
  let total :=
    FontPageTemplate.unit_ s * units + FontPageTemplate.body_units s
    + FontPageTemplate.footer_units s in
  let r := FontPageTemplate.set_header font_size units text_position s in
  (returned r ↔ total ≤ FontPageTemplate.page_height s)
  ∧ (r.2 = inl ValueError ↔ total > FontPageTemplate.page_height s)
  ∧ (total ≤ FontPageTemplate.page_height s →
     FontPageTemplate.header_font_size r.1 = font_size
     ∧ FontPageTemplate.header_units r.1 = FontPageTemplate.unit_ s * units
     ∧ FontPageTemplate.header_text_position r.1 = text_position
     ∧ FontPageTemplate.body_font_size r.1 = FontPageTemplate.body_font_size s
     ∧ FontPageTemplate.body_units r.1 = FontPageTemplate.body_units s
     ∧ FontPageTemplate.body_text_position r.1
       = FontPageTemplate.body_text_position s
     ∧ FontPageTemplate.footer_font_size r.1
       = FontPageTemplate.footer_font_size s
     ∧ FontPageTemplate.footer_units r.1 = FontPageTemplate.footer_units s
     ∧ FontPageTemplate.footer_text_position r.1
       = FontPageTemplate.footer_text_position s
     ∧ FontPageTemplate.unit_ r.1 = FontPageTemplate.unit_ s
     ∧ FontPageTemplate.page_height r.1 = FontPageTemplate.page_height s).
Proof.
  cbn zeta.
  pose proof (FontPageTemplateFacts.perform_cases
                (FontPageTemplate.SetHeader font_size units text_position) s)
    as Hcases.
  cbn [FontPageTemplate.perform FontPageTemplate.requested_total] in Hcases.
  rewrite Hcases. unfold returned.
  destruct (Z.gtb_spec
              (FontPageTemplate.unit_ s * units
               + FontPageTemplate.body_units s
               + FontPageTemplate.footer_units s)
              (FontPageTemplate.page_height s)) as [Hgt|Hle]; cbn.
  - split; [split; [intros [a [=]] | lia]|]. split; [split; [lia | done]|].
    lia.
  - split; [split; [done | by exists ()]|].
    split; [split; [discriminate | lia]|]. done.
Qed.

Lemma setter_accepts_within_page_witness :
  ∃ t0,
    FontPageTemplate.__init__ 3508 6 = inr t0
    ∧ returned (FontPageTemplate.set_header 90 1 "lcenter" t0)
    ∧ FontPageTemplate.header_font_size
        (FontPageTemplate.set_header 90 1 "lcenter" t0).1 = 90
    ∧ FontPageTemplate.header_units
        (FontPageTemplate.set_header 90 1 "lcenter" t0).1 = 584.
Proof.
  eexists. split; [reflexivity|].
  match goal with
  | |- returned (FontPageTemplate.set_header ?f ?u ?p ?s) ∧ _ =>
      destruct (setter_accepts_within_page s f u p) as (Hret & _ & Hpost)
  end.
  split; [apply Hret; vm_compute; discriminate|].
  destruct Hpost as (Hf & Hu & _); [vm_compute; discriminate|].
  split; [exact Hf | exact Hu].
Defined.

(** X4. The setters are idempotent: the same call made again, on the
    template as the first call left it, has the same outcome (return or
    [ValueError]) and changes nothing more. *)
Theorem setter_call_idempotent (c : FontPageTemplate.call)
    (s : FontPageTemplate.t) :
  FontPageTemplate.perform c (FontPageTemplate.perform c s).1
  = FontPageTemplate.perform c s.
Proof.
  rewrite (FontPageTemplateFacts.perform_cases c (_.1)).
  rewrite FontPageTemplateMore.requested_total_kept.
  pose proof (FontPageTemplateMore.unit_page_height_kept c s) as [Hu Hp].
  rewrite Hp.
  rewrite (FontPageTemplateFacts.perform_cases c s) in *.
  destruct (_ >? _); destruct c, s; reflexivity.
Qed.

(** X5. On a template whose bands are within the page, a call that asks
    its band for no more pixels than the band currently has never raises,
    and the bands then add up to the total the call asked for. *)
Theorem shrinking_a_band_returns (c : FontPageTemplate.call)
    (s : FontPageTemplate.t) :
  FontPageTemplate.within_page s →
  FontPageTemplate.requested_total c s ≤ FontPageTemplate.sum_units s →
  (FontPageTemplate.perform c s).2 = inr ()
  ∧ FontPageTemplate.sum_units (FontPageTemplate.perform c s).1
    = FontPageTemplate.requested_total c s.
Proof.
  unfold FontPageTemplate.within_page. intros Hin Hle.
  rewrite FontPageTemplateFacts.perform_accepted by lia.
  split; [done|]. destruct c; reflexivity.
Qed.

Lemma shrinking_a_band_returns_witness :
  ∃ t0,
    FontPageTemplate.__init__ 3508 6 = inr t0
    ∧ (FontPageTemplate.perform (FontPageTemplate.SetBody 140 2 "center")
         t0).2 = inr ()
    ∧ FontPageTemplate.sum_units
        (FontPageTemplate.perform (FontPageTemplate.SetBody 140 2 "center")
           t0).1 = 2920.
Proof.
  eexists. split; [reflexivity|].
  match goal with
  | |- (FontPageTemplate.perform ?c ?s).2 = _ ∧ _ =>
      destruct (shrinking_a_band_returns c s) as [Hret Hsum]
  end.
  - vm_compute. discriminate.
  - vm_compute. discriminate.
  - split; [exact Hret | exact Hsum].
Defined.

(** X6. No sequence of setter calls, raising or not, changes the unit or
    the page height of a template. *)
Theorem unit_and_page_height_fixed (cs : list FontPageTemplate.call)
    (s : FontPageTemplate.t) :
  FontPageTemplate.unit_ (FontPageTemplate.run cs s)
  = FontPageTemplate.unit_ s
  ∧ FontPageTemplate.page_height (FontPageTemplate.run cs s)
    = FontPageTemplate.page_height s.
Proof.
  revert s. induction cs as [|c cs IH]; intros s; [done|].
  change (FontPageTemplate.run (c :: cs) s)
    with (FontPageTemplate.run cs (FontPageTemplate.perform c s).1).
  destruct (IH (FontPageTemplate.perform c s).1) as [-> ->].
  apply FontPageTemplateMore.unit_page_height_kept.
Qed.

(** X7. A template built with six units on a page of height 36 or more is
    full: from the state the constructor leaves, [set_header] returns
    exactly for a count of at most 1, [set_body] for at most 3 and
    [set_footer] for at most 2, the counts the constructor itself uses. *)
Theorem default_template_is_full (page_height font_size units : Z)
    (text_position : string) :
  36 ≤ page_height →
  ∃ t0,
    FontPageTemplate.__init__ page_height
      FontPageTemplate.default_units_number = inr t0
    ∧ (returned (FontPageTemplate.set_header font_size units text_position t0)
       ↔ units ≤ 1)
    ∧ (returned (FontPageTemplate.set_body font_size units text_position t0)
       ↔ units ≤ 3)
    ∧ (returned (FontPageTemplate.set_footer font_size units text_position t0)
       ↔ units ≤ 2).
Proof.
  intros Hph. unfold FontPageTemplate.default_units_number.
  eexists. split; [reflexivity|].
  pose proof (Z.div_mod page_height 6 ltac:(lia)) as Hdiv.
  pose proof (Z.mod_pos_bound page_height 6 ltac:(lia)) as Hmod.
  assert (6 ≤ page_height `div` 6) as Hunit
    by (apply Z.div_le_lower_bound; lia).
  set (u := page_height `div` 6) in *.
  pose proof (FontPageTemplateFacts.perform_cases
                (FontPageTemplate.SetHeader font_size units text_position))
    as Hh.
  pose proof (FontPageTemplateFacts.perform_cases
                (FontPageTemplate.SetBody font_size units text_position))
    as Hb.
  pose proof (FontPageTemplateFacts.perform_cases
                (FontPageTemplate.SetFooter font_size units text_position))
    as Hf.
  cbn [FontPageTemplate.perform] in Hh, Hb, Hf.
  rewrite Hh, Hb, Hf. unfold returned. cbn. fold u.
  repeat split;
    match goal with
    | |- context [?a >? ?b] => destruct (Z.gtb_spec a b)
    end; cbn; intros Hx;
    try (destruct Hx as [? [=]]; fail);
    try (by exists ());
    first [ nia | exfalso; nia ].
Qed.

Lemma default_template_is_full_witness :
  ∃ t0,
    FontPageTemplate.__init__ 3508 FontPageTemplate.default_units_number
      = inr t0
    ∧ (returned (FontPageTemplate.set_header 120 2 "center" t0) ↔ 2 ≤ 1)
    ∧ (returned (FontPageTemplate.set_body 120 2 "center" t0) ↔ 2 ≤ 3)
    ∧ (returned (FontPageTemplate.set_footer 120 2 "center" t0) ↔ 2 ≤ 2).
Proof. apply (default_template_is_full 3508 120 2 "center"). lia. Defined.

(** X8. The constructor always lays out six units (one for the header,
    three for the body, two for the footer), whatever [units_number] is.
    With [units_number] of six or more and a page height that is not
    negative the bands are within the page after construction and after
    any sequence of setter calls. *)
Theorem six_or_more_units_within_page (page_height units_number : Z)
    (cs : list FontPageTemplate.call) :
  0 ≤ page_height →
  6 ≤ units_number →
  ∃ t0,
    FontPageTemplate.__init__ page_height units_number = inr t0
    ∧ FontPageTemplate.sum_units t0 = 6 * (page_height `div` units_number)
    ∧ FontPageTemplate.within_page (FontPageTemplate.run cs t0).
Proof.
  intros Hph Hn. unfold FontPageTemplate.__init__.
  destruct (Z.eqb_spec units_number 0) as [|_]; [lia|].
  eexists. split; [reflexivity|].
  split; [unfold FontPageTemplate.sum_units; cbn; lia|].
  apply FontPageTemplateFacts.run_within_page.
  unfold FontPageTemplate.within_page, FontPageTemplate.sum_units. cbn.
  pose proof (Z.mul_div_le page_height units_number ltac:(lia)).
  assert (0 ≤ page_height `div` units_number) by (apply Z.div_pos; lia).
  nia.
Qed.

Lemma six_or_more_units_within_page_witness :
  ∃ t0,
    FontPageTemplate.__init__ 3508 8 = inr t0
    ∧ FontPageTemplate.sum_units t0 = 6 * (3508 `div` 8)
    ∧ FontPageTemplate.within_page
        (FontPageTemplate.run
           [FontPageTemplate.SetBody 140 5 "center";
            FontPageTemplate.SetHeader 120 3 "top"] t0).
Proof. apply (six_or_more_units_within_page 3508 8); lia. Defined.

(** X9. With [units_number] between 1 and 5 and a page height of at least
    five times [units_number], the six units of the constructor do not fit:
    the bands of the new template add up to more than the page height, and
    [set_header] with the constructor's own count of 1 raises
    [ValueError]. *)
Theorem fewer_than_six_units_overflow (page_height units_number font_size : Z)
    (text_position : string) :
  1 ≤ units_number ≤ 5 →
  5 * units_number ≤ page_height →
  ∃ t0,
    FontPageTemplate.__init__ page_height units_number = inr t0
    ∧ FontPageTemplate.sum_units t0 > FontPageTemplate.page_height t0
    ∧ (FontPageTemplate.set_header font_size 1 text_position t0).2
      = inl ValueError.
Proof.
  intros Hn Hph. unfold FontPageTemplate.__init__.
  destruct (Z.eqb_spec units_number 0) as [|_]; [lia|].
  eexists. split; [reflexivity|].
  pose proof (Z.div_mod page_height units_number ltac:(lia)) as Hdiv.
  pose proof (Z.mod_pos_bound page_height units_number ltac:(lia)) as Hmod.
  assert (5 ≤ page_height `div` units_number) as Hunit
    by (apply Z.div_le_lower_bound; lia).
  set (u := page_height `div` units_number) in *.
  assert (6 * u > page_height) as Hover by nia.
  split; [unfold FontPageTemplate.sum_units; cbn; lia|].
  pose proof (FontPageTemplateFacts.perform_rejected
                (FontPageTemplate.SetHeader font_size 1 text_position))
    as Hrej.
  cbn [FontPageTemplate.perform] in Hrej. rewrite Hrej; [done|].
  cbn. lia.
Qed.

Lemma fewer_than_six_units_overflow_witness :
  ∃ t0,
    FontPageTemplate.__init__ 3508 3 = inr t0
    ∧ FontPageTemplate.sum_units t0 > FontPageTemplate.page_height t0
    ∧ (FontPageTemplate.set_header 120 1 "center" t0).2 = inl ValueError.
Proof. apply (fewer_than_six_units_overflow 3508 3 120 "center"); lia. Defined.

(** ** FontPreview: drawing, shrinking, positioning *)

Module FontPreviewMore.
Import FontPreview.

Section loop.
Context `{Pillow}.

(** The loop stops at the first size, going down by two, at which the text
    is not above the canvas. *)
Lemma resize_while_first_fit (fuel : nat) (self s' : t) :
  font self = {| path := path (font self); size := font_size self |} →
  __resize_while fuel (measured self) self = Some (s', inr ()) →
  ∃ n : nat,
    font_size s' = font_size self - 2 * Z.of_nat n
    ∧ font s' = {| path := path (font self); size := font_size s' |}
    ∧ (n ≠ 0%nat → truetype_error (path (font self)) (font_size s') = None)
    ∧ tuple_gt (measured s') (dimension self) = false
    ∧ ∀ m : nat, (m < n)%nat →
        tuple_gt
          (get_multiline_textsize (font_text self)
             {| path := path (font self);
                size := font_size self - 2 * Z.of_nat m |})
          (dimension self) = true.
Proof.
  revert self. induction fuel as [|fuel IH]; intros self Hfont; cbn.
  - destruct (tuple_gt (measured self) (dimension self)) eqn:Hgt;
      [discriminate|].
    intros [= <-]. exists 0%nat. repeat split; try done; [lia|].
    intros m Hm. lia.
  - destruct (tuple_gt (measured self) (dimension self)) eqn:Hgt.
    + unfold truetype.
      destruct (truetype_error _ _) eqn:Hload; [discriminate|].
      intros Hrec.
      apply (IH (set_font _ (set_font_size_attr (font_size self - 2) self)))
        in Hrec; [|done].
      destruct Hrec as (n & Hsz & Hf & Hloaded & Hfit & Hbefore). cbn in *.
      exists (S n). repeat split; try done.
      * lia.
      * intros _. destruct n as [|n]; [|by apply Hloaded].
        replace (font_size s') with (font_size self - 2) by lia. done.
      * intros [|m] Hm.
        -- rewrite Z.sub_0_r. unfold measured in Hgt.
           rewrite Hfont in Hgt. exact Hgt.
        -- replace (font_size self - 2 * Z.of_nat (S m))
             with (font_size self - 2 - 2 * Z.of_nat m) by lia.
           apply Hbefore. lia.
    + intros [= <-]. exists 0%nat. repeat split; try done; [lia|].
      intros m Hm. lia.
Qed.

(** What the loop leaves behind when the font loader raises in it. *)
Lemma resize_while_raised (fuel : nat) (ts : _Size) (self s' : t) e :
  __resize_while fuel ts self = Some (s', inl e) →
  truetype_error (path (font self)) (font_size s') = Some e
  ∧ font_size s' ≤ font_size self - 2
  ∧ path (font s') = path (font self)
  ∧ (s' = set_font_size_attr (font_size self - 2) self
     ∨ size (font s') = font_size s' + 2).
Proof.
  revert ts self. induction fuel as [|fuel IH]; intros ts self; cbn.
  - by destruct (tuple_gt ts (dimension self)).
  - destruct (tuple_gt ts (dimension self)); [|discriminate].
    unfold truetype. destruct (truetype_error _ _) eqn:Hload.
    + intros [= <- <-]. cbn.
      split; [done|]. split; [lia|]. split; [done|]. by left.
    + intros Hrec. apply IH in Hrec as (He & Hle & Hpath & Hfont).
      cbn in *.
      split; [done|]. split; [lia|]. split; [done|].
      right. destruct Hfont as [Hs'|Hsz]; [|done].
      rewrite Hs'. cbn. lia.
Qed.

Lemma set_font_size_more_fuel (fuel fuel' : nat) (size : Z) (self : t) r :
  set_font_size fuel size self = Some r →
  (fuel ≤ fuel')%nat →
  set_font_size fuel' size self = Some r.
Proof.
  rewrite !FontPreviewFacts.set_font_size_unfold.
  destruct (truetype_error _ _); [done|].
  destruct (__resize_while fuel _ _) as [r'|] eqn:Hloop; [|discriminate].
  intros Hr Hle.
  by rewrite (FontPreviewFacts.resize_while_more_fuel _ _ _ _ _ Hloop Hle).
Qed.

(** A returning [set_font_size], in terms of the preview it was called
    on. *)
Lemma set_font_size_fit (fuel : nat) (requested : Z) (self s' : t) :
  set_font_size fuel requested self = Some (s', inr ()) →
  ∃ n : nat,
    font_size s' = requested - 2 * Z.of_nat n
    ∧ font s' = {| path := path (font self); size := font_size s' |}
    ∧ truetype_error (path (font self)) (font_size s') = None
    ∧ font_text s' = font_text self
    ∧ dimension s' = dimension self
    ∧ tuple_gt (measured s') (dimension s') = false
    ∧ ∀ m : nat, (m < n)%nat →
        tuple_gt
          (get_multiline_textsize (font_text self)
             {| path := path (font self);
                size := requested - 2 * Z.of_nat m |})
          (dimension self) = true.
Proof.
  rewrite FontPreviewFacts.set_font_size_unfold.
  destruct (truetype_error _ _) eqn:Hload; [discriminate|].
  destruct (__resize_while _ _ _) as [[s [e|[]]]|] eqn:Hloop;
    [discriminate| |discriminate].
  intros [= <-].
  pose proof (FontPreviewFacts.resize_while_frame _ _ _ _ _ Hloop) as Hframe.
  apply resize_while_first_fit in Hloop; [|done].
  destruct Hloop as (n & Hsz & Hfont & Hloaded & Hfit & Hbefore).
  assert (dimension s = dimension self ∧ font_text s = font_text self)
    as [Hdim Htext] by (rewrite Hframe; by destruct self).
  exists n. cbn in *.
  split; [exact Hsz|]. split; [exact Hfont|].
  split.
  { destruct n as [|n]; [|by apply Hloaded].
    replace (font_size s) with requested by lia. exact Hload. }
  split; [exact Htext|]. split; [exact Hdim|].
  split; [by rewrite Hdim|]. exact Hbefore.
Qed.

(** A raising [set_font_size]. *)
Lemma set_font_size_raised (fuel : nat) (requested : Z) (self s' : t) e :
  set_font_size fuel requested self = Some (s', inl e) →
  truetype_error (path (font self)) (font_size s') = Some e
  ∧ font_size s' ≤ requested
  ∧ image s' = image self
  ∧ ((font_size s' = requested ∧ font s' = font self)
     ∨ size (font s') = font_size s' + 2).
Proof.
  rewrite FontPreviewFacts.set_font_size_unfold.
  destruct (truetype_error _ _) as [e'|] eqn:Hload.
  { intros [= <- <-]. cbn. rewrite Hload.
    split; [done|]. split; [lia|]. split; [done|]. by left. }
  destruct (__resize_while _ _ _) as [[s [e'|[]]]|] eqn:Hloop;
    [|discriminate..].
  intros [= <- <-].
  pose proof (FontPreviewFacts.resize_while_frame _ _ _ _ _ Hloop) as Hframe.
  apply resize_while_raised in Hloop as (He & Hle & _ & Hfont).
  cbn in He, Hle.
  split; [exact He|]. split; [lia|].
  split; [rewrite Hframe; by destruct self|].
  right. destruct Hfont as [->|Hsz]; [cbn; lia | exact Hsz].
Qed.

(** Whatever the outcome, [set_font_size] changes font size, font and
    canvas only. *)
Lemma set_font_size_frame (fuel : nat) (requested : Z) (self s' : t) r :
  set_font_size fuel requested self = Some (s', r) →
  font_position s' = font_position self
  ∧ font_text s' = font_text self
  ∧ dimension s' = dimension self
  ∧ color_system s' = color_system self
  ∧ bg_image s' = bg_image self
  ∧ bg_color s' = bg_color self
  ∧ fg_color s' = fg_color self
  ∧ path (font s') = path (font self).
Proof.
  rewrite FontPreviewFacts.set_font_size_unfold.
  destruct (truetype_error _ _).
  { intros [= <- <-]. by destruct self. }
  destruct (__resize_while _ _ _) as [[s [e|[]]]|] eqn:Hloop;
    [|intros [= <- <-]|discriminate].
  - intros [= <- <-].
    pose proof (FontPreviewFacts.resize_while_frame _ _ _ _ _ Hloop)
      as Hframe.
    apply resize_while_raised in Hloop as (_ & _ & Hpath & _).
    rewrite Hframe. rewrite Hframe in Hpath. by destruct self.
  - pose proof (FontPreviewFacts.resize_while_frame _ _ _ _ _ Hloop)
      as Hframe.
    apply FontPreviewFacts.resize_while_returned in Hloop
      as (_ & _ & [[-> _]|[Hfont _]]).
    + by destruct self.
    + rewrite Hframe. rewrite Hframe in Hfont. cbn in Hfont.
      destruct self; cbn in *. by rewrite Hfont.
Qed.

End loop.

End FontPreviewMore.

(** X10. When [set_font_size] returns, the stored font size is the first
    one in the sequence requested, requested - 2, requested - 4, ... at
    which the measured text is not above the canvas (in Python's ordering
    of tuples): the text is above the canvas at every earlier size of the
    sequence, and the font is the one loaded at the stored size. *)
Theorem set_font_size_first_fit `{Pillow} (fuel : nat) (size : Z)
    (self s' : FontPreview.t) :
  FontPreview.set_font_size fuel size self = Some (s', inr ()) →
  ∃ n : nat,
    FontPreview.font_size s' = size - 2 * Z.of_nat n
    ∧ FontPreview.font s'
      = {| path := path (FontPreview.font self);
           size := FontPreview.font_size s' |}
    ∧ tuple_gt
        (get_multiline_textsize (FontPreview.font_text s')
           (FontPreview.font s'))
        (FontPreview.dimension s') = false
    ∧ ∀ m : nat, (m < n)%nat →
        tuple_gt
          (get_multiline_textsize (FontPreview.font_text self)
             {| path := path (FontPreview.font self);
                size := size - 2 * Z.of_nat m |})
          (FontPreview.dimension self) = true.
Proof.
  intros Hrun.
  destruct (FontPreviewMore.set_font_size_fit _ _ _ _ Hrun)
    as (n & Hsz & Hfont & _ & _ & _ & Hfit & Hbefore).
  exists n. done.
Qed.

Lemma set_font_size_first_fit_witness :
  @FontPreview.set_font_size monospace sample_fuel 200 sample_preview
    = Some (after_set_font_size 200 sample_preview, inr ())
  ∧ FontPreview.font_size (after_set_font_size 200 sample_preview) = 126
  ∧ ∃ n : nat,
      FontPreview.font_size (after_set_font_size 200 sample_preview)
      = 200 - 2 * Z.of_nat n
      ∧ FontPreview.font (after_set_font_size 200 sample_preview)
        = {| path := path (FontPreview.font sample_preview);
             size := FontPreview.font_size
                       (after_set_font_size 200 sample_preview) |}
      ∧ tuple_gt
          (@get_multiline_textsize monospace
             (FontPreview.font_text (after_set_font_size 200 sample_preview))
             (FontPreview.font (after_set_font_size 200 sample_preview)))
          (FontPreview.dimension (after_set_font_size 200 sample_preview))
        = false
      ∧ ∀ m : nat, (m < n)%nat →
          tuple_gt
            (@get_multiline_textsize monospace
               (FontPreview.font_text sample_preview)
               {| path := path (FontPreview.font sample_preview);
                  size := 200 - 2 * Z.of_nat m |})
            (FontPreview.dimension sample_preview) = true.
Proof.
  assert (@FontPreview.set_font_size monospace sample_fuel 200 sample_preview
          = Some (after_set_font_size 200 sample_preview, inr ())) as Hrun
    by (vm_compute; reflexivity).
  split; [exact Hrun|]. split; [vm_compute; reflexivity|].
  exact (@set_font_size_first_fit monospace _ _ _ _ Hrun).
Defined.



(** X12. With a font loader that refuses every size of zero and below,
    [set_font_size] terminates: once its loop is allowed the requested
    size plus one rounds (one round for a size that is not positive) the
    call has returned or raised, and allowing more rounds gives the same
    outcome. *)
Theorem set_font_size_terminates `{Pillow} (size : Z)
    (self : FontPreview.t) :
  (∀ p sz, sz ≤ 0 → is_Some (truetype_error p sz)) →
  ∃ r, ∀ fuel, (S (Z.to_nat size) ≤ fuel)%nat →
         FontPreview.set_font_size fuel size self = Some r.
Proof.
  intros Hfloor.
  destruct (FontPreviewFacts.set_font_size_stops (S (Z.to_nat size)) size
              self Hfloor) as [r Hr]; [lia..|].
  exists r. intros fuel Hfuel.
  by apply (FontPreviewMore.set_font_size_more_fuel (S (Z.to_nat size))).
Qed.

Lemma set_font_size_terminates_witness :
  ∃ r, ∀ fuel, (S (Z.to_nat 200) ≤ fuel)%nat →
         @FontPreview.set_font_size monospace fuel 200 sample_preview
         = Some r.
Proof.
  apply (@set_font_size_terminates monospace 200 sample_preview).
  intros p sz Hsz. cbn. destruct (Z.leb_spec sz 0); [by eexists | lia].
Defined.

(** X13. Whether it returns or raises, [set_font_size] changes nothing but
    font size, font and canvas: text, dimension, colours, background and
    the file of the font stay, and so does the text position, which is not
    computed again for the new size. *)
Theorem set_font_size_keeps_position `{Pillow} (fuel : nat) (size : Z)
    (self s' : FontPreview.t) r :
  FontPreview.set_font_size fuel size self = Some (s', r) →
  FontPreview.font_position s' = FontPreview.font_position self
  ∧ FontPreview.font_text s' = FontPreview.font_text self
  ∧ FontPreview.dimension s' = FontPreview.dimension self
  ∧ FontPreview.color_system s' = FontPreview.color_system self
  ∧ FontPreview.bg_image s' = FontPreview.bg_image self
  ∧ FontPreview.bg_color s' = FontPreview.bg_color self
  ∧ FontPreview.fg_color s' = FontPreview.fg_color self
  ∧ path (FontPreview.font s') = path (FontPreview.font self).
Proof. apply FontPreviewMore.set_font_size_frame. Qed.

Lemma set_font_size_keeps_position_witness :
  FontPreview.font_position (after_set_font_size 200 sample_preview)
    = FontPreview.font_position sample_preview
  ∧ FontPreview.font_size (after_set_font_size 200 sample_preview) = 126
  ∧ FontPreview.font_size sample_preview = 64.
Proof.
  assert (@FontPreview.set_font_size monospace sample_fuel 200 sample_preview
          = Some (after_set_font_size 200 sample_preview, inr ())) as Hrun
    by (vm_compute; reflexivity).
  destruct (@set_font_size_keeps_position monospace _ _ _ _ _ Hrun)
    as (Hpos & _).
  split; [exact Hpos|]. split; vm_compute; reflexivity.
Defined.



(** X15. There is no floor on the font size.  With a font loader that
    refuses every size of zero and below, if the text is above the canvas
    at every positive size of the sequence requested, requested - 2, ...,
    then [set_font_size] raises the exception of the loader instead of
    returning. *)
Theorem set_font_size_raises_when_nothing_fits `{Pillow} (requested : Z)
    (self : FontPreview.t) :
  (∀ p sz, sz ≤ 0 → is_Some (truetype_error p sz)) →
  (∀ n : nat, 0 < requested - 2 * Z.of_nat n →
     tuple_gt
       (get_multiline_textsize (FontPreview.font_text self)
          {| path := path (FontPreview.font self);
             size := requested - 2 * Z.of_nat n |})
       (FontPreview.dimension self) = true) →
  ∃ s' e,
    (∀ fuel, (S (Z.to_nat requested) ≤ fuel)%nat →
       FontPreview.set_font_size fuel requested self = Some (s', inl e))
    ∧ truetype_error (path (FontPreview.font self))
        (FontPreview.font_size s') = Some e.
Proof.
  intros Hfloor Hover.
  destruct (FontPreviewFacts.set_font_size_stops (S (Z.to_nat requested))
              requested self Hfloor) as [[s' [e|[]]] Hrun]; [lia..| |].
  - exists s', e. split.
    + intros fuel Hfuel.
      by apply (FontPreviewMore.set_font_size_more_fuel
                  (S (Z.to_nat requested))).
    + by apply FontPreviewMore.set_font_size_raised in Hrun as (He & _).
  - exfalso.
    apply FontPreviewMore.set_font_size_fit in Hrun
      as (n & Hsz & Hfont & Hloaded & Htext & Hdim & Hfit & _).
    destruct (Z.le_gt_cases (FontPreview.font_size s') 0) as [Hle|Hpos].
    + destruct (Hfloor (path (FontPreview.font self))
                  (FontPreview.font_size s') Hle) as [e He]. congruence.
    + unfold FontPreview.measured in Hfit.
      rewrite Hfont, Htext, Hdim, Hsz in Hfit.
      rewrite Hover in Hfit; [discriminate | lia].
Qed.

Lemma set_font_size_raises_when_nothing_fits_witness :
  ∃ s' e,
    (∀ fuel, (S (Z.to_nat 64) ≤ fuel)%nat →
       @FontPreview.set_font_size monospace fuel 64
         (sample_renderer "a b c d e f" (4, 327)) = Some (s', inl e))
    ∧ @truetype_error monospace roboto (FontPreview.font_size s') = Some e.
Proof.
  apply (@set_font_size_raises_when_nothing_fits monospace 64
           (sample_renderer "a b c d e f" (4, 327))).
  - intros p sz Hsz. cbn. destruct (Z.leb_spec sz 0); [by eexists | lia].
  - intros n Hn. apply tuple_gt_wide. cbn.
    assert (1 ≤ (64 - 2 * Z.of_nat n) `div` 2)
      by (apply Z.div_le_lower_bound; lia).
    lia.
Defined.

(** X16. Asking for the same size twice is asking once: when
    [set_font_size] returns, the same call on the resulting preview
    returns that preview unchanged. *)
Theorem set_font_size_twice `{Pillow} (fuel : nat) (requested : Z)
    (self s' : FontPreview.t) :
  FontPreview.set_font_size fuel requested self = Some (s', inr ()) →
  FontPreview.set_font_size fuel requested s' = Some (s', inr ()).
Proof. apply FontPreviewFacts.set_font_size_again. Qed.

Lemma set_font_size_twice_witness :
  @FontPreview.set_font_size monospace sample_fuel 200
    (after_set_font_size 200 sample_preview)
  = Some (after_set_font_size 200 sample_preview, inr ()).
Proof.
  apply (@set_font_size_twice monospace sample_fuel 200 sample_preview).
  vm_compute. reflexivity.
Defined.

(** X17. With boxes as Pillow gives them (top not below bottom) and a
    canvas height that is not negative, [__resize] shrinks for width only:
    a text no wider than the canvas is left as it is, however high it is,
    and a text wider than the canvas costs the font size at least 2. *)
Theorem resize_shrinks_for_width_only `{Pillow} (self : FontPreview.t) :
  (∀ l t r b,
     multiline_textbbox (FontPreview.font self) (FontPreview.font_text self)
       = (l, t, r, b) → t ≤ b) →
  0 ≤ (FontPreview.dimension self).2 →
  let width :=
    (get_multiline_textsize (FontPreview.font_text self)
       (FontPreview.font self)).1 in
  (width ≤ (FontPreview.dimension self).1 →
   ∀ fuel, FontPreview.__resize fuel self = Some (self, inr ()))
  ∧ (width > (FontPreview.dimension self).1 →
     ∀ fuel s' res, FontPreview.__resize fuel self = Some (s', res) →
       FontPreview.font_size s' ≤ FontPreview.font_size self - 2).
Proof.
  intros Hbox Hcanvas. cbn zeta.
  unfold FontPreview.__resize, get_multiline_textsize.
  destruct (multiline_textbbox _ _) as [[[l t] r] b] eqn:Hbb.
  specialize (Hbox l t r b eq_refl). cbn [_bbox2size fst].
  split.
  - intros Hw fuel.
    assert (tuple_gt (r - l, t - b) (FontPreview.dimension self) = false)
      as Hfit by (apply tuple_gt_fits; cbn; lia).
    destruct fuel; cbn; by rewrite Hfit.
  - intros Hw fuel s' res.
    assert (tuple_gt (r - l, t - b) (FontPreview.dimension self) = true)
      as Hgt by (apply tuple_gt_wide; cbn; lia).
    destruct fuel as [|fuel]; cbn; rewrite Hgt; [discriminate|].
    unfold truetype. destruct (truetype_error _ _).
    + intros [= <- <-]. cbn. lia.
    + destruct res as [e|[]]; intros Hrun.
      * apply FontPreviewMore.resize_while_raised in Hrun as (_ & Hle & _).
        cbn in Hle. lia.
      * apply FontPreviewFacts.resize_while_returned in Hrun as (Hle & _).
        cbn in Hle. lia.
Qed.

Lemma resize_shrinks_for_width_only_witness :
  @FontPreview.__resize monospace 0
    (sample_renderer column_text (700, 327))
  = Some (sample_renderer column_text (700, 327), inr ()).
Proof.
  refine (proj1 (@resize_shrinks_for_width_only monospace
                   (sample_renderer column_text (700, 327)) _ _) _ 0%nat).
  - intros l t r b [= <- <- <- <-]. lia.
  - cbn. lia.
  - vm_compute. discriminate.
Defined.





(** [set_text_position] with a tuple stores the tuple as it is,
    without measuring the text or looking at the canvas, so the position
    may lie outside the canvas.  With a tuple or a name alike it returns,
    draws the text again at the new position with left alignment, and
    leaves font, font size, text, dimension and colours as they were. *)
Theorem set_text_position_stores_and_redraws `{Pillow} (pos : position)
    (self : FontPreview.t) :
  let r := FontPreview.set_text_position pos self in
  returned r
  ∧ (∀ xy, pos = PosTuple xy → FontPreview.font_position r.1 = xy)
  ∧ r.1 = FontPreview.set_image (FontPreview.rendered "left" r.1)
            (FontPreview.set_font_position (FontPreview.font_position r.1)
               self)
  ∧ FontPreview.set_text_position pos r.1 = r.
Proof.
  cbn zeta. destruct pos as [xy|name].
  - cbn. split; [by exists ()|]. split; [by intros ? [= <-]|].
    by destruct self.
  - unfold FontPreview.set_text_position, mbind, Py_bind, py_bind, modify,
      FontPreview.draw_default, FontPreview.draw, get. cbn.
    split; [by exists ()|]. split; [done|]. by destruct self.
Qed.

Lemma set_text_position_stores_and_redraws_witness :
  FontPreview.font_position
    (@FontPreview.set_text_position monospace (PosTuple (5000, -20))
       sample_preview).1 = (5000, -20).
Proof.
  destruct (@set_text_position_stores_and_redraws monospace
              (PosTuple (5000, -20)) sample_preview) as (_ & Hxy & _).
  by apply Hxy.
Defined.

(** The constructor raises exactly when the font loader refuses the
    font at the given size, with the loader's exception.  Otherwise the
    new preview has the given size, text and dimension, its font is the
    one loaded at that size, its text position is the centred one for the
    size of the text measured as a single line, and its canvas has the
    size of the dimension. *)
Theorem constructor_centres_text `{Pillow} (font : string) (font_size : Z)
    (font_text color_system : string) (bg_color fg_color : Color)
    (dimension : _Size) :
  let r := FontPreview.__init__ font font_size font_text color_system
             bg_color fg_color dimension in
  (∀ e, r = inl e ↔ truetype_error font font_size = Some e)
  ∧ (∀ p, r = inr p →
       FontPreview.font_size p = font_size
       ∧ FontPreview.font p = {| path := font; size := font_size |}
       ∧ FontPreview.font_text p = font_text
       ∧ FontPreview.dimension p = dimension
       ∧ FontPreview.font_position p
         = (let fxy := get_font_size (FontPreview.font p) font_text in
            ((dimension.1 - fxy.1) `div` 2, (dimension.2 - fxy.2) `div` 2))
       ∧ image_size (FontPreview.image p) = dimension
       ∧ FontPreview.image p = FontPreview.rendered "left" p).
Proof.
  cbn zeta. unfold FontPreview.__init__, truetype.
  destruct (truetype_error font font_size) as [e'|].
  - split; [|discriminate]. intros e. split; congruence.
  - split; [intros e; split; discriminate|].
    intros p [= <-]. done.
Qed.

Lemma constructor_centres_text_witness :
  FontPreview.font_position sample_preview = (174, 195)
  ∧ @image_size monospace (FontPreview.image sample_preview) = (700, 327).
Proof.
  destruct (@constructor_centres_text monospace roboto 64 "a b c d e f"
              "RGB" "white" "black" (700, 327)) as [_ Hok].
  destruct (Hok sample_preview) as (_ & _ & _ & _ & Hpos & Hsize & _).
  - vm_compute. reflexivity.
  - split; [rewrite Hpos; vm_compute; reflexivity | exact Hsize].
Defined.

(** ** FontPage: the setters and the constructor *)

(** X20. The parts are checked by class and a refused part changes
    nothing: [set_header] raises [TypeError] for anything that is not a
    [FontBanner], a plain [FontPreview] and a [FontLogo] included, while
    [set_body] and [set_footer] refuse only what is no renderer at all;
    [set_logo] raises [TypeError] for anything that is not a [FontLogo]
    and [ValueError] for a [FontLogo] on a page whose header is [None].
    In each case the page and all objects are as before. *)
Theorem parts_are_checked_by_class `{Pillow} `{FontBannerModule}
    (r : ref) (w : FontPage.world) :
  (isinstance_FontBanner (FontPage.heap w !! r) = false →
   FontPage.set_header r w = Some (w, inl TypeError))
  ∧ (∀ st, FontPage.heap w !! r = Some (Renderer CFontPreview st)
           ∨ FontPage.heap w !! r = Some (Renderer CFontLogo st) →
       FontPage.set_header r w = Some (w, inl TypeError))
  ∧ (isinstance_FontPreview (FontPage.heap w !! r) = false →
     FontPage.set_body r w = Some (w, inl TypeError)
     ∧ FontPage.set_footer r w = Some (w, inl TypeError))
  ∧ (isinstance_FontLogo (FontPage.heap w !! r) = false →
     FontPage.set_logo r w = Some (w, inl TypeError))
  ∧ (isinstance_FontLogo (FontPage.heap w !! r) = true →
     FontPage.header (FontPage.self w) = PyNone →
     FontPage.set_logo r w = Some (w, inl ValueError)).
Proof.
  unfold FontPage.set_header, FontPage.set_body, FontPage.set_footer,
    FontPage.set_logo.
  split; [by intros ->|].
  split; [by intros st [-> | ->]|].
  split; [by intros ->|].
  split; [by intros ->|].
  intros -> Hnone. cbn.
  unfold mbind, PyD_bind, pyd_bind, FontPage.read. by rewrite Hnone.
Qed.

Lemma parts_are_checked_by_class_witness :
  @FontPage.set_header monospace sample_pages 2%nat sample_world
    = Some (sample_world, inl TypeError)
  ∧ @FontPage.set_body monospace sample_pages 3%nat sample_world
    = Some (sample_world, inl TypeError)
  ∧ @FontPage.set_logo monospace sample_pages 1%nat
      (FontPage.World empty_page sample_heap)
    = Some (FontPage.World empty_page sample_heap, inl ValueError).
Proof.
  split; [|split].
  - destruct (@parts_are_checked_by_class monospace sample_pages 2%nat
                sample_world) as (Hh & _).
    apply Hh. vm_compute. reflexivity.
  - destruct (@parts_are_checked_by_class monospace sample_pages 3%nat
                sample_world) as (_ & _ & Hb & _).
    apply Hb. vm_compute. reflexivity.
  - destruct (@parts_are_checked_by_class monospace sample_pages 1%nat
                (FontPage.World empty_page sample_heap))
      as (_ & _ & _ & _ & Hl).
    apply Hl; vm_compute; reflexivity.
Defined.

(** X21. [set_body] with a plain [FontPreview] that has no background
    image always returns: the page stores the reference, the canvas of
    the preview is as wide as the canvas of the page and as high as it
    was, font, font size, text and text position of the preview are kept,
    and no other object is changed. *)
Theorem set_body_widens_preview `{Pillow} `{FontBannerModule}
    (b : ref) (st : FontPreview.t) (w : FontPage.world) :
  FontPage.heap w !! b = Some (Renderer CFontPreview st) →
  FontPreview.bg_image_set st = None →
  ∃ w' st',
    FontPage.set_body b w = Some (w', inr ())
    ∧ FontPage.self w' = FontPage.set_body_attr (Ref b) (FontPage.self w)
    ∧ FontPage.heap w' = <[b := Renderer CFontPreview st']> (FontPage.heap w)
    ∧ image_size (FontPreview.image st')
      = (image_width (FontPage.page (FontPage.self w)),
         image_height (FontPreview.image st))
    ∧ FontPreview.font st' = FontPreview.font st
    ∧ FontPreview.font_size st' = FontPreview.font_size st
    ∧ FontPreview.font_text st' = FontPreview.font_text st
    ∧ FontPreview.font_position st' = FontPreview.font_position st.
Proof.
  intros Hb Hbg.
  unfold FontPage.set_body. rewrite Hb. cbn.
  unfold FontPage.widen, mbind, PyD_bind, pyd_bind, FontPage.get_self,
    FontPage.deref, FontPage.assign, FontPage.call, FontPage.on_self.
  cbn. rewrite Hb.
  case_bool_decide as Hwidth.
  - cbn. rewrite Hb. cbn. rewrite lookup_insert_eq. cbn.
    do 2 eexists. split; [reflexivity|]. cbn.
    split; [done|]. split; [by rewrite insert_insert_eq|].
    unfold FontPreview.rendered.
    assert (FontPreview.bg_image_set
              (FontPreview.set_dimension
                 (image_width (FontPage.page (FontPage.self w)),
                  image_height (FontPreview.image st)) st) = None) as ->
      by (by destruct st).
    by destruct st.
  - exists (FontPage.World (FontPage.set_body_attr (Ref b) (FontPage.self w))
              (FontPage.heap w)), st.
    split; [reflexivity|]. cbn. split; [done|].
    split; [by rewrite insert_id|].
    split; [|done].
    unfold image_width, image_height in *.
    destruct (image_size (FontPreview.image st)). cbn in *. by rewrite Hwidth.
Qed.

Lemma set_body_widens_preview_witness :
  ∃ w' st',
    @FontPage.set_body monospace sample_pages 2%nat
      (FontPage.World empty_page sample_heap) = Some (w', inr ())
    ∧ FontPage.heap w' !! 2%nat = Some (Renderer CFontPreview st')
    ∧ @image_size monospace (FontPreview.image st') = (2480, 327).
Proof.
  destruct (@set_body_widens_preview monospace sample_pages 2%nat
              (sample_renderer "a b c d e f" (700, 327))
              (FontPage.World empty_page sample_heap))
    as (w' & st' & Hrun & _ & Hheap & Hsize & _);
    [vm_compute; reflexivity..|].
  exists w', st'. split; [exact Hrun|].
  split; [rewrite Hheap; apply lookup_insert_eq | exact Hsize].
Defined.

(** X22. A page cannot be constructed with a logo and no header: the
    constructor raises [ValueError] for a [FontLogo] and [TypeError] for
    anything else, before it looks at body and footer, and no object is
    changed. *)
Theorem logo_without_header_is_refused `{Pillow} `{FontBannerModule}
    (template : option FontPageTemplate.t) (dimension : _Size) (l : ref)
    (body footer : option ref) (hp : gmap ref pyobj) :
  FontPage.__init__ template dimension None (Some l) body footer hp
  = Some (hp, inl (if isinstance_FontLogo (hp !! l)
                   then ValueError else TypeError)).
Proof.
  unfold FontPage.__init__, FontPage.set_logo, mbind, PyD_bind, pyd_bind,
    FontPage.on_self, FontPage.read.
  cbn. by destruct (isinstance_FontLogo (hp !! l)).
Qed.

(** ** FontPage: drawing *)

Module FontPageMore.
Import FontPage.

Section drawing.
Context `{Pillow} `{FontBannerModule}.
Variable fuel : nat.

Lemma asserted_run (a : t → attr) (w w' : world) (r : ref) :
  asserted a w = Some (w', inr r) → w' = w ∧ a (self w) = Ref r.
Proof.
  unfold asserted. intros Hrun.
  apply FontPageFacts.pyd_bind_inr in Hrun as (w1 & o & Hread & Hrun).
  apply FontPageFacts.read_run in Hread as [-> Ha].
  destruct o as [r'|]; [|discriminate].
  by injection Hrun as <- <-.
Qed.

Ltac draw_step H :=
  let w' := fresh "w" in
  let a := fresh "a" in
  let Hs := fresh "Hs" in
  apply FontPageFacts.pyd_bind_inr in H as (w' & a & Hs & H);
  first
    [ apply FontPageFacts.deref_run in Hs as [-> _]; destruct a as [? ?]
    | apply asserted_run in Hs as [-> _]
    | injection Hs as <- <- ];
  cbv beta iota in H.

(** A returning [draw] is a returning [__compose] followed by pastes and
    lines on the canvas of the page: nothing else is changed after
    [__compose], and the canvas keeps its size. *)
Lemma draw_run (separator : bool) (sep_color : Color) (sep_width : Z)
    (w w2 : world) :
  draw fuel separator sep_color sep_width w = Some (w2, inr ()) →
  ∃ w1,
    __compose fuel w = Some (w1, inr ())
    ∧ heap w2 = heap w1
    ∧ self w2 = set_page (page (self w2)) (self w1)
    ∧ image_size (page (self w2)) = image_size (page (self w1)).
Proof.
  unfold draw. intros Hrun.
  apply FontPageFacts.pyd_bind_inr in Hrun as (w1 & [] & Hcompose & Hrun).
  exists w1. split; [exact Hcompose|].
  do 12 draw_step Hrun.
  destruct separator.
  - do 6 draw_step Hrun.
    injection Hrun as <-. cbn. by destruct (self w1).
  - injection Hrun as <-. cbn. by destruct (self w1).
Qed.

End drawing.

End FontPageMore.

(** X23. When [draw] returns, the page has a template (the one it had, or
    [FontPageTemplate(dimension[1])] if it had none, in which case its
    dimension is unchanged), its dimension is its old width and the page
    height of the template, and its canvas has exactly that size.  The
    header, body, footer and logo attributes are as before, every object
    keeps its class, and no object other than the three parts is
    changed. *)
Theorem draw_rebuilds_canvas `{Pillow} `{FontBannerModule} (fuel : nat)
    (separator : bool) (sep_color : Color) (sep_width : Z)
    (w w2 : FontPage.world) :
  FontPage.draw fuel separator sep_color sep_width w = Some (w2, inr ()) →
  ∃ tpl,
    FontPage.template (FontPage.self w2) = Some tpl
    ∧ (FontPage.template (FontPage.self w) = Some tpl
       ∨ (FontPage.template (FontPage.self w) = None
          ∧ FontPageTemplate.__init__
              (FontPage.dimension (FontPage.self w)).2
              FontPageTemplate.default_units_number = inr tpl
          ∧ FontPage.dimension (FontPage.self w2)
            = FontPage.dimension (FontPage.self w)))
    ∧ FontPage.dimension (FontPage.self w2)
      = ((FontPage.dimension (FontPage.self w)).1,
         FontPageTemplate.page_height tpl)
    ∧ image_size (FontPage.page (FontPage.self w2))
      = FontPage.dimension (FontPage.self w2)
    ∧ FontPage.header (FontPage.self w2) = FontPage.header (FontPage.self w)
    ∧ FontPage.body (FontPage.self w2) = FontPage.body (FontPage.self w)
    ∧ FontPage.footer (FontPage.self w2) = FontPage.footer (FontPage.self w)
    ∧ FontPage.logo (FontPage.self w2) = FontPage.logo (FontPage.self w)
    ∧ (∀ r, FontPage.class_of (FontPage.heap w2 !! r)
            = FontPage.class_of (FontPage.heap w !! r))
    ∧ (∀ r, FontPage.header (FontPage.self w) ≠ Ref r →
            FontPage.body (FontPage.self w) ≠ Ref r →
            FontPage.footer (FontPage.self w) ≠ Ref r →
            FontPage.heap w2 !! r = FontPage.heap w !! r).
Proof.
  intros Hrun.
  apply FontPageMore.draw_run in Hrun
    as (w1 & Hcompose & Hheap & Hself2 & Hsize).
  apply FontPageFacts.compose_run_full in Hcompose
    as (h & b & f & tpl & Hrel & Hh & Hb & Hf & Hself1 & Hch & _).
  destruct Hch as (_ & Hclasses & Hframe). cbn in Hclasses, Hframe.
  assert (FontPage.dimension (FontPage.self w2)
          = ((FontPage.dimension (FontPage.self w)).1,
             FontPageTemplate.page_height tpl)) as Hdim
    by (rewrite Hself2, Hself1; reflexivity).
  exists tpl.
  split; [rewrite Hself2, Hself1; reflexivity|].
  split.
  { destruct Hrel as [Hsome|[Hnone Hinit]]; [by left|].
    right. split; [exact Hnone|]. split; [exact Hinit|].
    rewrite Hdim. unfold FontPageTemplate.__init__ in Hinit. cbn in Hinit.
    injection Hinit as <-. cbn. by destruct (FontPage.dimension _). }
  split; [exact Hdim|].
  split.
  { rewrite Hsize, Hdim, Hself1. reflexivity. }
  split; [rewrite Hself2, Hself1; reflexivity|].
  split; [rewrite Hself2, Hself1; reflexivity|].
  split; [rewrite Hself2, Hself1; reflexivity|].
  split; [rewrite Hself2, Hself1; reflexivity|].
  split; [intros r; rewrite Hheap; apply Hclasses|].
  intros r Hrh Hrb Hrf. rewrite Hheap. apply Hframe.
  rewrite !not_elem_of_cons.
  repeat split; try (intros ->; congruence). apply not_elem_of_nil.
Qed.

Lemma draw_rebuilds_canvas_witness :
  @FontPage.draw monospace sample_pages sample_fuel true "black" 5
    sample_world = Some (sample_drawn, inr ())
  ∧ @image_size monospace (FontPage.page (FontPage.self sample_drawn))
    = (2480, 3508)
  ∧ FontPage.heap sample_drawn !! 1%nat = FontPage.heap sample_world !! 1%nat.
Proof.
  assert (@FontPage.draw monospace sample_pages sample_fuel true "black" 5
            sample_world = Some (sample_drawn, inr ())) as Hrun
    by (vm_compute; reflexivity).
  destruct (@draw_rebuilds_canvas monospace sample_pages _ _ _ _ _ _ Hrun)
    as (tpl & _ & _ & Hdim & Hsize & _ & _ & _ & _ & _ & Hframe).
  split; [exact Hrun|].
  split; [rewrite Hsize; vm_compute; reflexivity|].
  apply Hframe; vm_compute; discriminate.
Defined.

Module FontPageBands.
Import FontPage.

Section bands.
Context `{Pillow} `{FontBannerModule}.
Variable fuel : nat.

(** The stages of a returning [__compose], one world after the other. *)
Lemma compose_stages (w w1 : world) :
  __compose fuel w = Some (w1, inr ()) →
  ∃ h b f tpl w4 w5 w6 w7 w8 w9,
    header (self w) = Ref h
    ∧ body (self w) = Ref b
    ∧ footer (self w) = Ref f
    ∧ template (self w1) = Some tpl
    ∧ heap w4 = heap w
    ∧ image_size (page (self w4))
      = ((dimension (self w)).1, FontPageTemplate.page_height tpl)
    ∧ dimension (self w1)
      = ((dimension (self w)).1, FontPageTemplate.page_height tpl)
    ∧ set_header h w4 = Some (w5, inr ())
    ∧ compose_part fuel h (FontPageTemplate.header_units tpl)
        (FontPageTemplate.header_font_size tpl)
        (FontPageTemplate.header_text_position tpl) w5 = Some (w6, inr ())
    ∧ set_body b w6 = Some (w7, inr ())
    ∧ compose_part fuel b (FontPageTemplate.body_units tpl)
        (FontPageTemplate.body_font_size tpl)
        (FontPageTemplate.body_text_position tpl) w7 = Some (w8, inr ())
    ∧ set_footer f w8 = Some (w9, inr ())
    ∧ compose_part fuel f (FontPageTemplate.footer_units tpl)
        (FontPageTemplate.footer_font_size tpl)
        (FontPageTemplate.footer_text_position tpl) w9 = Some (w1, inr ())
    ∧ page (self w6) = page (self w4)
    ∧ page (self w8) = page (self w4).
Proof.
  intros Hrun.
  pose proof (FontPageFacts.compose_run_full fuel w w1 Hrun)
    as (h0 & b0 & f0 & tpl0 & _ & Hh0 & Hb0 & Hf0 & Hself1 & _).
  unfold __compose in Hrun.
  apply FontPageFacts.pyd_bind_inr in Hrun as (w2 & [] & Htpl & Hrun).
  apply FontPageFacts.default_template_run in Htpl
    as (_ & Hheap2 & tpl & Hself2 & _).
  apply FontPageFacts.pyd_bind_inr in Hrun as (? & h & Hread & Hrun).
  apply FontPageFacts.read_run in Hread as [-> Hh].
  destruct h as [h|]; [|discriminate].
  apply FontPageFacts.pyd_bind_inr in Hrun as (? & b & Hread & Hrun).
  apply FontPageFacts.read_run in Hread as [-> Hb].
  destruct b as [b|]; [|discriminate].
  apply FontPageFacts.pyd_bind_inr in Hrun as (? & f & Hread & Hrun).
  apply FontPageFacts.read_run in Hread as [-> Hf].
  destruct f as [f|]; [|discriminate].
  apply FontPageFacts.pyd_bind_inr in Hrun as (? & tpl' & Ht & Hrun).
  apply FontPageFacts.the_template_run in Ht as [-> Ht].
  assert (tpl' = tpl) as ->
    by (rewrite Hself2 in Ht; cbn in Ht; congruence).
  apply FontPageFacts.pyd_bind_inr in Hrun as (w3 & [] & [= <-] & Hrun).
  apply FontPageFacts.pyd_bind_inr in Hrun as (w4 & [] & Hw4 & Hrun).
  injection Hw4 as Hw4.
  apply FontPageFacts.pyd_bind_inr in Hrun as (w5 & [] & Hset_h & Hrun).
  pose proof (FontPageFacts.set_header_run _ _ _ Hset_h) as [Hself5 _].
  apply FontPageFacts.pyd_bind_inr in Hrun as (? & tpl5 & Ht5 & Hrun).
  apply FontPageFacts.the_template_run in Ht5 as [-> Ht5].
  apply FontPageFacts.pyd_bind_inr in Hrun as (w6 & [] & Hpart_h & Hrun).
  pose proof (FontPageFacts.compose_part_run _ _ _ _ _ _ _ Hpart_h)
    as [(Hs6 & _) _].
  apply FontPageFacts.pyd_bind_inr in Hrun as (w7 & [] & Hset_b & Hrun).
  pose proof (FontPageFacts.set_body_run _ _ _ Hset_b) as [Hself7 _].
  apply FontPageFacts.pyd_bind_inr in Hrun as (? & tpl7 & Ht7 & Hrun).
  apply FontPageFacts.the_template_run in Ht7 as [-> Ht7].
  apply FontPageFacts.pyd_bind_inr in Hrun as (w8 & [] & Hpart_b & Hrun).
  pose proof (FontPageFacts.compose_part_run _ _ _ _ _ _ _ Hpart_b)
    as [(Hs8 & _) _].
  apply FontPageFacts.pyd_bind_inr in Hrun as (w9 & [] & Hset_f & Hrun).
  pose proof (FontPageFacts.set_footer_run _ _ _ Hset_f) as [Hself9 _].
  apply FontPageFacts.pyd_bind_inr in Hrun as (? & tpl9 & Ht9 & Hrun).
  apply FontPageFacts.the_template_run in Ht9 as [-> Ht9].
  assert (template (self w4) = Some tpl) as Ht4
    by (rewrite <- Hw4; cbn; rewrite Hself2; reflexivity).
  assert (tpl5 = tpl) as ->
    by (rewrite Hself5 in Ht5; cbn in Ht5; congruence).
  assert (tpl7 = tpl) as ->.
  { rewrite Hself7, Hs6, Hself5 in Ht7. cbn in Ht7. congruence. }
  assert (tpl9 = tpl) as ->.
  { rewrite Hself9, Hs8, Hself7, Hs6, Hself5 in Ht9. cbn in Ht9. congruence. }
  assert (tpl0 = tpl) as ->.
  { pose proof (FontPageFacts.compose_part_run _ _ _ _ _ _ _ Hrun)
      as [(Hs1 & _) _].
    rewrite Hs1, Hself9, Hs8, Hself7, Hs6, Hself5 in Hself1.
    apply (f_equal template) in Hself1. cbn in Hself1. congruence. }
  exists h, b, f, tpl, w4, w5, w6, w7, w8, w9.
  rewrite Hself2 in Hh, Hb, Hf. cbn in Hh, Hb, Hf.
  split; [exact Hh|]. split; [exact Hb|]. split; [exact Hf|].
  split; [rewrite Hself1; reflexivity|].
  split; [rewrite <- Hw4; cbn; exact Hheap2|].
  split.
  { rewrite <- Hw4. cbn. rewrite Hself2. reflexivity. }
  split; [rewrite Hself1; reflexivity|].
  split; [exact Hset_h|]. split; [exact Hpart_h|].
  split; [exact Hset_b|]. split; [exact Hpart_b|].
  split; [exact Hset_f|]. split; [exact Hrun|].
  split; [rewrite Hs6, Hself5; reflexivity|].
  rewrite Hs8, Hself7, Hs6, Hself5. reflexivity.
Qed.

Lemma rendered_size (align : string) (st : FontPreview.t) :
  FontPreview.bg_image_set st = None →
  image_size (FontPreview.rendered align st) = FontPreview.dimension st.
Proof. unfold FontPreview.rendered. cbn. by intros ->. Qed.

Lemma bg_image_set_eq (st st' : FontPreview.t) :
  FontPreview.bg_image st' = FontPreview.bg_image st →
  FontPreview.bg_image_set st' = FontPreview.bg_image_set st.
Proof. unfold FontPreview.bg_image_set. by intros ->. Qed.

(** A method call that returns, on an object of known state. *)
Lemma call_known (r : ref) (m : rclass → PyD FontPreview.t ()) cls st
    (w w' : world) :
  heap w !! r = Some (Renderer cls st) →
  call r m w = Some (w', inr ()) →
  ∃ st', m cls st = Some (st', inr ())
         ∧ heap w' !! r = Some (Renderer cls st')
         ∧ self w' = self w.
Proof.
  unfold call. intros ->.
  destruct (m cls st) as [[st' [e|[]]]|]; [discriminate| |discriminate].
  intros [= <-]. exists st'. cbn. by rewrite lookup_insert_eq.
Qed.

(** Widening a plain preview that has no background image. *)
Lemma widen_plain (r : ref) (st : FontPreview.t) (w : world) :
  heap w !! r = Some (Renderer CFontPreview st) →
  FontPreview.bg_image_set st = None →
  ∃ st',
    widen r w
    = Some (World (self w) (<[r := Renderer CFontPreview st']> (heap w)),
            inr ())
    ∧ image_size (FontPreview.image st')
      = (image_width (page (self w)), image_height (FontPreview.image st))
    ∧ FontPreview.bg_image_set st' = None
    ∧ (image_size (FontPreview.image st) = FontPreview.dimension st →
       image_size (FontPreview.image st') = FontPreview.dimension st')
    ∧ FontPreview.font st' = FontPreview.font st
    ∧ FontPreview.font_size st' = FontPreview.font_size st
    ∧ FontPreview.font_text st' = FontPreview.font_text st
    ∧ FontPreview.font_position st' = FontPreview.font_position st.
Proof.
  intros Hr Hbg.
  unfold widen, mbind, PyD_bind, pyd_bind, get_self, deref, assign, call.
  cbn. rewrite Hr.
  case_bool_decide as Hwidth.
  - cbn. rewrite Hr. cbn. rewrite lookup_insert_eq.
    unfold m_draw, total, FontPreview.draw_default, FontPreview.draw,
      mbind, Py_bind, py_bind, modify, get. cbn.
    eexists. split; [by rewrite insert_insert_eq|].
    assert (FontPreview.bg_image_set
              (FontPreview.set_dimension
                 (image_width (page (self w)),
                  image_height (FontPreview.image st)) st) = None) as Hbg'
      by (by destruct st).
    unfold FontPreview.rendered. rewrite Hbg'.
    split; [by destruct st|]. split; [by destruct st|].
    split; [by destruct st|]. by destruct st.
  - exists st. split; [by rewrite insert_id; [destruct w|]|].
    split; [|done].
    unfold image_width, image_height in *.
    destruct (image_size (FontPreview.image st)). cbn in *. by rewrite Hwidth.
Qed.

(** One band of [__compose] on a plain preview without background image
    whose canvas has the width of the page and the size of its
    dimension. *)
Lemma compose_part_plain (r : ref) (units font_size : Z) (pos : string)
    (st : FontPreview.t) (w w' : world) :
  heap w !! r = Some (Renderer CFontPreview st) →
  FontPreview.bg_image_set st = None →
  image_size (FontPreview.image st) = FontPreview.dimension st →
  image_width (FontPreview.image st) = image_width (page (self w)) →
  compose_part fuel r units font_size pos w = Some (w', inr ()) →
  ∃ st',
    heap w' !! r = Some (Renderer CFontPreview st')
    ∧ image_size (FontPreview.image st')
      = (image_width (page (self w)), units)
    ∧ FontPreview.dimension st' = (image_width (page (self w)), units)
    ∧ FontPreview.bg_image_set st' = None
    ∧ FontPreview.font_size st' ≤ font_size.
Proof.
  intros Hr Hbg Hcons Hwidth Hrun. unfold compose_part in Hrun.
  apply FontPageFacts.pyd_bind_inr in Hrun as (? & s0 & [= <- <-] & Hrun).
  apply FontPageFacts.pyd_bind_inr in Hrun as (? & [cls st0] & Hd & Hrun).
  apply FontPageFacts.deref_run in Hd as [-> Hd].
  rewrite Hr in Hd. injection Hd as <- <-.
  apply FontPageFacts.pyd_bind_inr in Hrun as (w1 & [] & Hdim & Hrun).
  apply FontPageFacts.pyd_bind_inr in Hrun as (w2 & [] & Hsize & Hpos).
  assert (∃ st1,
            heap w1 !! r = Some (Renderer CFontPreview st1)
            ∧ self w1 = self w
            ∧ FontPreview.dimension st1 = (image_width (page (self w)), units)
            ∧ FontPreview.bg_image st1 = FontPreview.bg_image st)
    as (st1 & Hr1 & Hself1 & Hdim1 & Hbg1).
  { case_bool_decide as Hheight.
    - unfold assign in Hdim. rewrite Hr in Hdim. injection Hdim as <-.
      eexists. cbn. rewrite lookup_insert_eq.
      split; [reflexivity|]. split; [done|]. by destruct st.
    - injection Hdim as <-. exists st. split; [exact Hr|]. split; [done|].
      split; [|done].
      rewrite <- Hcons. unfold image_width, image_height in *.
      destruct (image_size (FontPreview.image st)). cbn in *.
      by rewrite Hwidth, Hheight. }
  destruct (call_known _ _ _ _ _ _ Hr1 Hsize) as (st2 & Hm2 & Hr2 & Hself2).
  destruct (call_known _ _ _ _ _ _ Hr2 Hpos) as (st3 & Hm3 & Hr3 & Hself3).
  cbn in Hm2, Hm3.
  pose proof (FontPreviewFacts.set_font_size_returned _ _ _ _ Hm2)
    as (Hle2 & _ & _ & _ & Hdim2 & _ & _).
  pose proof (FontPreviewMore.set_font_size_frame _ _ _ _ _ Hm2)
    as (_ & _ & _ & _ & Hbg2 & _).
  injection Hm3 as Hm3.
  assert (FontPreview.dimension st3 = FontPreview.dimension st2
          ∧ FontPreview.bg_image st3 = FontPreview.bg_image st2
          ∧ FontPreview.font_size st3 = FontPreview.font_size st2
          ∧ FontPreview.image st3 = FontPreview.rendered "left" st3)
    as (Hdim3 & Hbg3 & Hfs3 & Himg3).
  { unfold FontPreview.set_text_position, mbind, Py_bind, py_bind, modify,
      FontPreview.draw_default, FontPreview.draw, get in Hm3.
    cbn in Hm3. rewrite <- Hm3. by destruct st2. }
  assert (FontPreview.bg_image_set st3 = None) as Hbgs3.
  { rewrite <- Hbg. apply bg_image_set_eq. congruence. }
  exists st3. split; [exact Hr3|].
  split; [rewrite Himg3, rendered_size by done; congruence|].
  split; [congruence|]. split; [exact Hbgs3|]. lia.
Qed.

Lemma set_header_banner (h : ref) (w w' : world) :
  set_header h w = Some (w', inr ()) →
  isinstance_FontBanner (heap w !! h) = true.
Proof.
  unfold set_header. by destruct (isinstance_FontBanner _).
Qed.

(** [set_body] and [set_footer] on a plain preview, then its band. *)
Lemma plain_part_sized (setter : ref → PyD world ()) (set_attr : attr → t → t)
    (r : ref) (units font_size : Z) (pos : string) (st : FontPreview.t)
    (w w' w'' : world) :
  (∀ w0, setter r w0
         = if negb (isinstance_FontPreview (heap w0 !! r))
           then raiseD TypeError w0
           else (widen r;; on_self (set_attr (Ref r))) w0) →
  (∀ a s, page (set_attr a s) = page s) →
  heap w !! r = Some (Renderer CFontPreview st) →
  FontPreview.bg_image_set st = None →
  image_size (FontPreview.image st) = FontPreview.dimension st →
  setter r w = Some (w', inr ()) →
  compose_part fuel r units font_size pos w' = Some (w'', inr ()) →
  ∃ st',
    heap w'' !! r = Some (Renderer CFontPreview st')
    ∧ image_size (FontPreview.image st')
      = (image_width (page (self w)), units)
    ∧ FontPreview.font_size st' ≤ font_size.
Proof.
  intros Hsetter Hpage Hr Hbg Hcons Hset Hpart.
  rewrite Hsetter, Hr in Hset. cbn in Hset.
  destruct (widen_plain r st w Hr Hbg)
    as (st1 & Hwiden & Hsize1 & Hbg1 & Hcons1 & _).
  rewrite (FontPageFacts.pyd_bind_run _ _ _ _ _ Hwiden) in Hset.
  injection Hset as <-.
  eapply compose_part_plain in Hpart;
    [| cbn; apply lookup_insert_eq | exact Hbg1 | by apply Hcons1 |].
  - destruct Hpart as (st' & Hr' & Hsize' & _ & _ & Hle).
    exists st'. cbn in Hsize'. rewrite Hpage in Hsize'. done.
  - cbn. rewrite Hpage. unfold image_width at 1. by rewrite Hsize1.
Qed.

End bands.

End FontPageBands.

(** X24. When [draw] returns on a page whose body and footer are two
    different plain [FontPreview] objects without background image, each
    with a canvas of the size of its dimension, then afterwards the canvas
    of the body is as wide as the page and as high as the body band of the
    template, the canvas of the footer is as wide as the page and as high
    as the footer band, and their font sizes are at most those of the
    template. *)
Theorem draw_sizes_plain_parts `{Pillow} `{FontBannerModule} (fuel : nat)
    (separator : bool) (sep_color : Color) (sep_width : Z)
    (w w2 : FontPage.world) (b f : ref) (bst ftst : FontPreview.t) :
  FontPage.draw fuel separator sep_color sep_width w = Some (w2, inr ()) →
  FontPage.body (FontPage.self w) = Ref b →
  FontPage.footer (FontPage.self w) = Ref f →
  b ≠ f →
  FontPage.heap w !! b = Some (Renderer CFontPreview bst) →
  FontPreview.bg_image_set bst = None →
  image_size (FontPreview.image bst) = FontPreview.dimension bst →
  FontPage.heap w !! f = Some (Renderer CFontPreview ftst) →
  FontPreview.bg_image_set ftst = None →
  image_size (FontPreview.image ftst) = FontPreview.dimension ftst →
  ∃ tpl bst' ftst',
    FontPage.template (FontPage.self w2) = Some tpl
    ∧ FontPage.heap w2 !! b = Some (Renderer CFontPreview bst')
    ∧ image_size (FontPreview.image bst')
      = ((FontPage.dimension (FontPage.self w2)).1,
         FontPageTemplate.body_units tpl)
    ∧ FontPreview.font_size bst' ≤ FontPageTemplate.body_font_size tpl
    ∧ FontPage.heap w2 !! f = Some (Renderer CFontPreview ftst')
    ∧ image_size (FontPreview.image ftst')
      = ((FontPage.dimension (FontPage.self w2)).1,
         FontPageTemplate.footer_units tpl)
    ∧ FontPreview.font_size ftst' ≤ FontPageTemplate.footer_font_size tpl.
Proof.
  intros Hrun Hb Hf Hbf Hbst Hbbg Hbcons Hfst Hfbg Hfcons.
  apply FontPageMore.draw_run in Hrun
    as (w1 & Hcompose & Hheap2 & Hself2 & _).
  apply FontPageBands.compose_stages in Hcompose
    as (h & b' & f' & tpl & w4 & w5 & w6 & w7 & w8 & w9
        & Hh & Hb' & Hf' & Htpl & Hheap4 & Hpage4 & Hdim1
        & Hset_h & Hpart_h & Hset_b & Hpart_b & Hset_f & Hpart_f
        & Hpage6 & Hpage8).
  assert (b' = b) as -> by congruence.
  assert (f' = f) as -> by congruence.
  (* the header is a banner, hence another object *)
  pose proof (FontPageBands.set_header_banner _ _ _ Hset_h) as Hbanner.
  rewrite Hheap4 in Hbanner.
  assert (h ≠ b) as Hhb by (intros ->; by rewrite Hbst in Hbanner).
  assert (h ≠ f) as Hhf by (intros ->; by rewrite Hfst in Hbanner).
  assert (∀ x (wa wb : FontPage.world) r,
            FontPage.changes [x] wa wb → r ≠ x →
            FontPage.heap wb !! r = FontPage.heap wa !! r) as Hkeep.
  { intros x wa wb r (_ & _ & Hfr) Hne. apply Hfr.
    rewrite not_elem_of_cons. split; [done | apply not_elem_of_nil]. }
  apply FontPageFacts.set_header_run in Hset_h as [_ Hch5].
  pose proof (FontPageFacts.compose_part_run _ _ _ _ _ _ _ Hpart_h)
    as [Hch6 _].
  pose proof (FontPageFacts.set_body_run _ _ _ Hset_b) as [_ Hch7].
  pose proof (FontPageFacts.compose_part_run _ _ _ _ _ _ _ Hpart_b)
    as [Hch8 _].
  pose proof (FontPageFacts.set_footer_run _ _ _ Hset_f) as [_ Hch9].
  pose proof (FontPageFacts.compose_part_run _ _ _ _ _ _ _ Hpart_f)
    as [Hch1 _].
  (* the body *)
  assert (FontPage.heap w6 !! b = Some (Renderer CFontPreview bst)) as Hb6.
  { rewrite (Hkeep _ _ _ _ Hch6 (not_eq_sym Hhb)).
    pose proof (Hkeep _ _ _ b Hch5 (not_eq_sym Hhb)) as H5. cbn in H5.
    by rewrite H5, Hheap4. }
  destruct (FontPageBands.plain_part_sized fuel FontPage.set_body
              FontPage.set_body_attr b (FontPageTemplate.body_units tpl)
              (FontPageTemplate.body_font_size tpl)
              (FontPageTemplate.body_text_position tpl) bst w6 w7 w8)
    as (bst' & Hb8 & Hbsize & Hbfs); try done.
  assert (FontPage.heap w1 !! b = Some (Renderer CFontPreview bst')) as Hb1.
  { rewrite (Hkeep _ _ _ _ Hch1 Hbf).
    pose proof (Hkeep _ _ _ b Hch9 Hbf) as H9. cbn in H9.
    by rewrite H9. }
  (* the footer *)
  assert (FontPage.heap w8 !! f = Some (Renderer CFontPreview ftst)) as Hf8.
  { rewrite (Hkeep _ _ _ _ Hch8 (not_eq_sym Hbf)).
    pose proof (Hkeep _ _ _ f Hch7 (not_eq_sym Hbf)) as H7. cbn in H7.
    rewrite H7, (Hkeep _ _ _ _ Hch6 (not_eq_sym Hhf)).
    pose proof (Hkeep _ _ _ f Hch5 (not_eq_sym Hhf)) as H5. cbn in H5.
    by rewrite H5, Hheap4. }
  destruct (FontPageBands.plain_part_sized fuel FontPage.set_footer
              FontPage.set_footer_attr f (FontPageTemplate.footer_units tpl)
              (FontPageTemplate.footer_font_size tpl)
              (FontPageTemplate.footer_text_position tpl) ftst w8 w9 w1)
    as (ftst' & Hf1 & Hfsize & Hffs); try done.
  assert (FontPage.dimension (FontPage.self w2)
          = FontPage.dimension (FontPage.self w1)) as Hdim2
    by (rewrite Hself2; reflexivity).
  exists tpl, bst', ftst'.
  split; [rewrite Hself2; exact Htpl|].
  rewrite Hheap2, Hdim2, Hdim1. cbn [fst].
  unfold image_width in Hbsize, Hfsize.
  rewrite Hpage6, Hpage4 in Hbsize. rewrite Hpage8, Hpage4 in Hfsize.
  done.
Qed.

Lemma draw_sizes_plain_parts_witness :
  @FontPage.draw monospace sample_pages sample_fuel true "black" 5
    sample_world_plain = Some (sample_drawn_plain, inr ())
  ∧ ∃ tpl bst' ftst',
      FontPage.template (FontPage.self sample_drawn_plain) = Some tpl
      ∧ FontPage.heap sample_drawn_plain !! 2%nat
        = Some (Renderer CFontPreview bst')
      ∧ @image_size monospace (FontPreview.image bst')
        = ((FontPage.dimension (FontPage.self sample_drawn_plain)).1,
           FontPageTemplate.body_units tpl)
      ∧ FontPreview.font_size bst' ≤ FontPageTemplate.body_font_size tpl
      ∧ FontPage.heap sample_drawn_plain !! 4%nat
        = Some (Renderer CFontPreview ftst')
      ∧ @image_size monospace (FontPreview.image ftst')
        = ((FontPage.dimension (FontPage.self sample_drawn_plain)).1,
           FontPageTemplate.footer_units tpl)
      ∧ FontPreview.font_size ftst' ≤ FontPageTemplate.footer_font_size tpl.
Proof.
  assert (@FontPage.draw monospace sample_pages sample_fuel true "black" 5
            sample_world_plain = Some (sample_drawn_plain, inr ())) as Hrun
    by (vm_compute; reflexivity).
  split; [exact Hrun|].
  apply (@draw_sizes_plain_parts monospace sample_pages sample_fuel true
           "black" 5 sample_world_plain sample_drawn_plain 2%nat 4%nat
           (renderer_at 2%nat sample_world_plain)
           (renderer_at 4%nat sample_world_plain));
    [ exact Hrun
    | vm_compute; reflexivity
    | vm_compute; reflexivity
    | intros [=]
    | vm_compute; reflexivity.. ].
Defined.

(** ** FontBooklet: construction and saving *)

Module FontBookletMore.
Import FontBooklet.

Lemma checked_pages (args : list booklet_arg) (ps : list FontPage.t) :
  checked args = inr ps ↔ args = APage <$> ps.
Proof.
  revert ps. induction args as [|[p|] args IH]; intros ps; cbn.
  - split; [intros [= <-]; done|]. by destruct ps.
  - destruct (checked args) as [e|ps'] eqn:Hargs.
    + split; [discriminate|]. destruct ps as [|p' ps]; [discriminate|].
      cbn. intros [= -> Heq]. apply IH in Heq. discriminate.
    + split.
      * intros [= <-]. cbn. f_equal. by apply IH.
      * destruct ps as [|p' ps]; [discriminate|].
        cbn. intros [= -> Heq]. apply IH in Heq. congruence.
  - split; [discriminate|]. by destruct ps.
Qed.

Lemma checked_error (args : list booklet_arg) e :
  checked args = inl e ↔ e = TypeError ∧ NotAPage ∈ args.
Proof.
  revert e. induction args as [|[p|] args IH]; intros e; cbn.
  - split; [discriminate|]. intros [_ Hin]. by apply elem_of_nil in Hin.
  - destruct (checked args) as [e'|ps'] eqn:Hargs.
    + destruct (proj1 (IH e') eq_refl) as [-> Hin]. split.
      * intros [= <-]. split; [done|]. by apply list_elem_of_further.
      * by intros [-> _].
    + split; [discriminate|]. intros [-> Hin].
      apply elem_of_cons in Hin as [[=]|Hin].
      pose proof (proj2 (IH TypeError) (conj eq_refl Hin)) as Hbad.
      discriminate.
  - split; [intros [= <-]; split; [done | apply list_elem_of_here]|].
    by intros [-> _].
Qed.






End FontBookletMore.

(** X25. The constructor of a booklet accepts exactly the argument lists
    that consist of pages, and keeps the pages in the order given; if any
    argument is not a page it raises [TypeError], the only exception it
    raises. *)
Theorem booklet_takes_pages_in_order (args : list booklet_arg) :
  (∀ book, FontBooklet.__init__ args = inr book
           ↔ args = APage <$> FontBooklet.__iter__ book)
  ∧ (∀ e, FontBooklet.__init__ args = inl e
          ↔ e = TypeError ∧ NotAPage ∈ args).
Proof.
  unfold FontBooklet.__init__, FontBooklet.__iter__. split.
  - intros [ps]. cbn. rewrite <- FontBookletMore.checked_pages.
    destruct (FontBooklet.checked args); split; congruence.
  - intros e. rewrite <- FontBookletMore.checked_error.
    destruct (FontBooklet.checked args); split; congruence.
Qed.






